(** * gitbot: the webhook and revert engine, embedded and verified

    A shallow embedding of [lib.py] (the command runner and the checkout
    synchroniser) and of [gitbot/deployhook.py] (signature check, pull
    request handler, revert workflow), followed by the properties that the
    specification states about them.

    Conventions of the embedding.
    - A Python [str] is a Rocq [string]; each character stands for the code
      point of the same number, so the texts covered are those of the
      Latin-1 range (every literal of the program, and every header value a
      WSGI server hands over).  A Python [bytes] is a [list byte].
    - Calls to [logger] are left out: they return nothing and change no
      value the program reads.
    - The world outside the process (what a child process does and prints,
      which paths exist, which directory [mkdtemp] makes) is a parameter. *)

From Stdlib Require Import NArith ZArith List String Ascii Bool Lia.
From Stdlib Require Import Init.Byte.
Import ListNotations.

Local Open Scope string_scope.
Local Open Scope list_scope.

(** Text concatenation ([+] on [str], and the pieces of an f-string). *)
Infix "+++" := String.append (right associativity, at level 60).

(* ================================================================== *)
(** ** Bytes and words *)

Module Bytes.

Definition byte_of_N (n : N) : byte :=
  match Byte.of_N (n mod 256) with
  | Some b => b
  | None => x00
  end.

(** Big-endian encoding of [n] on [len] bytes (the low [8*len] bits). *)
Fixpoint be_bytes (len : nat) (n : N) : list byte :=
  match len with
  | O => []
  | S k => byte_of_N (N.shiftr n (8 * N.of_nat k)) :: be_bytes k n
  end.

(** Big-endian value of a byte string. *)
Definition be_value (bs : list byte) : N :=
  fold_left (fun acc b => acc * 256 + Byte.to_N b)%N bs 0%N.

(** Cut a byte string into consecutive chunks of [n] bytes; [fuel] bounds
    the number of chunks. *)
Fixpoint chunks {A} (fuel n : nat) (l : list A) : list (list A) :=
  match fuel with
  | O => []
  | S f =>
      match l with
      | [] => []
      | _ => firstn n l :: chunks f n (skipn n l)
      end
  end.

End Bytes.

(* ================================================================== *)
(** ** SHA-1 ([hashlib.sha1]) *)

Module Sha1.
Import Bytes.
Local Open Scope N_scope.

Definition w32 : N := 4294967296.
Definition mask32 : N := 4294967295.

Definition add32 (x y : N) : N := (x + y) mod w32.
Definition not32 (x : N) : N := N.lxor x mask32.
Definition rotl (n x : N) : N :=
  N.lor (N.land (N.shiftl x n) mask32) (N.shiftr x (32 - n)).

Definition f (t : nat) (b c d : N) : N :=
  if Nat.ltb t 20 then N.lor (N.land b c) (N.land (not32 b) d)
  else if Nat.ltb t 40 then N.lxor b (N.lxor c d)
  else if Nat.ltb t 60 then
    N.lor (N.land b c) (N.lor (N.land b d) (N.land c d))
  else N.lxor b (N.lxor c d).

Definition K (t : nat) : N :=
  if Nat.ltb t 20 then 0x5A827999
  else if Nat.ltb t 40 then 0x6ED9EBA1
  else if Nat.ltb t 60 then 0x8F1BBCDC
  else 0xCA62C1D6.

Record regs := Regs { ra : N; rb : N; rc : N; rd : N; re : N }.

Definition init : regs :=
  Regs 0x67452301 0xEFCDAB89 0x98BADCFE 0x10325476 0xC3D2E1F0.

(** The message schedule is kept as a window of the sixteen words
    [w_t .. w_(t+15)]; one round consumes [w_t] and appends [w_(t+16)]. *)
Definition next_word (win : list N) : N :=
  rotl 1 (N.lxor (nth 13 win 0)
           (N.lxor (nth 8 win 0) (N.lxor (nth 2 win 0) (nth 0 win 0)))).

Fixpoint rounds (n t : nat) (r : regs) (win : list N) : regs :=
  match n with
  | O => r
  | S n' =>
      let w := nth 0 win 0 in
      let tmp :=
        add32 (add32 (add32 (add32 (rotl 5 (ra r)) (f t (rb r) (rc r) (rd r)))
                            (re r)) w) (K t) in
      rounds n' (S t)
        (Regs tmp (ra r) (rotl 30 (rb r)) (rc r) (rd r))
        (tl win ++ [next_word win])
  end.

Definition block_words (blk : list byte) : list N :=
  map be_value (chunks 16 4 blk).

Definition compress (r : regs) (blk : list byte) : regs :=
  let r' := rounds 80 0 r (block_words blk) in
  Regs (add32 (ra r) (ra r')) (add32 (rb r) (rb r')) (add32 (rc r) (rc r'))
       (add32 (rd r) (rd r')) (add32 (re r) (re r')).

(** Padding: a one bit, zeros up to 56 modulo 64, the bit length on eight
    bytes. *)
Definition pad (msg : list byte) : list byte :=
  let len := List.length msg in
  let zeros := ((119 - (len mod 64)) mod 64)%nat in
  msg ++ [x80] ++ repeat x00 zeros ++ be_bytes 8 (8 * N.of_nat len).

Definition digest (msg : list byte) : list byte :=
  let p := pad msg in
  let r := fold_left compress (chunks (List.length p) 64 p) init in
  be_bytes 4 (ra r) ++ be_bytes 4 (rb r) ++ be_bytes 4 (rc r)
    ++ be_bytes 4 (rd r) ++ be_bytes 4 (re r).

Definition block_size : nat := 64.

End Sha1.

(** The double quote, as a character and as a text. *)
Definition dquote_char : ascii :=
  Ascii false true false false false true false false.
Definition dquote : string := String dquote_char "".

(* ================================================================== *)
(** ** Text: the [str] methods the program calls *)

Module Str.

Definition code (c : ascii) : N := N_of_ascii c.

(** [str.isascii] *)
Definition is_ascii_char (c : ascii) : bool := N.ltb (code c) 128.

Fixpoint isascii (s : string) : bool :=
  match s with
  | EmptyString => true
  | String c r => is_ascii_char c && isascii r
  end.

(** [str.encode("utf-8")] on code points below 256. *)
Definition utf8_char (c : ascii) : list byte :=
  let n := code c in
  if N.ltb n 128 then [Bytes.byte_of_N n]
  else [Bytes.byte_of_N (N.lor 192 (N.shiftr n 6));
        Bytes.byte_of_N (N.lor 128 (N.land n 63))].

Fixpoint encode_utf8 (s : string) : list byte :=
  match s with
  | EmptyString => []
  | String c r => utf8_char c ++ encode_utf8 r
  end.

Definition hexdigit (n : N) : ascii :=
  if N.ltb n 10 then ascii_of_N (48 + n) else ascii_of_N (87 + n).

Definition hex_byte (b : byte) : string :=
  let n := Byte.to_N b in
  String (hexdigit (N.shiftr n 4)) (String (hexdigit (N.land n 15)) "").

(** [bytes.hex] *)
Fixpoint hex (bs : list byte) : string :=
  match bs with
  | [] => ""
  | b :: r => hex_byte b +++ hex r
  end.

(** [str.isspace] on one character: the white space of Unicode below
    U+0100. *)
Definition isspace (c : ascii) : bool :=
  let n := code c in
  (N.leb 9 n && N.leb n 13) || (N.leb 28 n && N.leb n 32)
  || N.eqb n 133 || N.eqb n 160.

Definition is_empty (s : string) : bool :=
  match s with EmptyString => true | _ => false end.

(** [s.split()]: the maximal runs of characters that are not white space.
    [cur] is the run being read. *)
Fixpoint split_from (s cur : string) : list string :=
  match s with
  | EmptyString => if is_empty cur then [] else [cur]
  | String c r =>
      if isspace c
      then (if is_empty cur then split_from r "" else cur :: split_from r "")
      else split_from r (cur +++ String c "")
  end.

Definition split (s : string) : list string := split_from s "".

Fixpoint lstrip (s : string) : string :=
  match s with
  | EmptyString => ""
  | String c r => if isspace c then lstrip r else s
  end.

Fixpoint rstrip (s : string) : string :=
  match s with
  | EmptyString => ""
  | String c r =>
      let r' := rstrip r in
      if isspace c && is_empty r' then "" else String c r'
  end.

(** [s.strip()] *)
Definition strip (s : string) : string := rstrip (lstrip s).

(** [s.startswith(p)] *)
Definition startswith (s p : string) : bool := String.prefix p s.

(** [sub in s] *)
Fixpoint contains (sub s : string) : bool :=
  if String.prefix sub s then true
  else match s with
       | EmptyString => false
       | String _ r => contains sub r
       end.

(** [s.find(sub)]: the least index at which [sub] occurs, or -1. *)
Fixpoint find_from (sub s : string) (i : Z) : Z :=
  if String.prefix sub s then i
  else match s with
       | EmptyString => (-1)%Z
       | String _ r => find_from sub r (i + 1)%Z
       end.

Definition find (s sub : string) : Z := find_from sub s 0%Z.

(** [s.replace(old, new)]: every occurrence of [old], scanning from the
    left without overlap.  [skip] counts the characters of an occurrence
    still to be dropped. *)
Fixpoint replace_from (old new s : string) (skip : nat) : string :=
  match s with
  | EmptyString => ""
  | String c r =>
      match skip with
      | S k => replace_from old new r k
      | O =>
          if String.prefix old s
          then new +++ replace_from old new r (String.length old - 1)
          else String c (replace_from old new r 0)
      end
  end.

Fixpoint intersperse (new s : string) : string :=
  match s with
  | EmptyString => new
  | String c r => new +++ String c (intersperse new r)
  end.

Definition replace (s old new : string) : string :=
  if is_empty old then intersperse new s else replace_from old new s 0.

(** [bytes.splitlines]: lines end at LF, CR or CR LF. *)
Fixpoint splitlines_from (bs cur : list byte) : list (list byte) :=
  match bs with
  | [] => match cur with [] => [] | _ => [cur] end
  | b :: r =>
      if Byte.eqb b x0a then cur :: splitlines_from r []
      else if Byte.eqb b x0d then
        match r with
        | b' :: r' =>
            if Byte.eqb b' x0a then cur :: splitlines_from r' []
            else cur :: splitlines_from r []
        | [] => [cur]
        end
      else splitlines_from r (cur ++ [b])
  end.

Definition splitlines (bs : list byte) : list (list byte) :=
  splitlines_from bs [].

(** [bytes.decode("utf-8")].  [None] is [UnicodeDecodeError]; a sequence
    for a code point above U+00FF, which [string] does not hold, is
    refused as well.  The statements about captured output are about
    output that is the encoding of a text of [string], for which the
    function gives the text back. *)
Fixpoint decode_utf8 (bs : list byte) : option string :=
  match bs with
  | [] => Some ""
  | b :: r =>
      let n := Byte.to_N b in
      if N.ltb n 128 then option_map (String (ascii_of_N n)) (decode_utf8 r)
      else if N.eqb n 194 || N.eqb n 195 then
        match r with
        | b2 :: r' =>
            let m := Byte.to_N b2 in
            if N.leb 128 m && N.ltb m 192
            then option_map (String (ascii_of_N ((n - 192) * 64 + (m - 128))))
                            (decode_utf8 r')
            else None
        | [] => None
        end
      else None
  end.

(** [c in s] for one character. *)
Fixpoint occurs (c : ascii) (s : string) : bool :=
  match s with
  | EmptyString => false
  | String d r => Ascii.eqb c d || occurs c r
  end.

(** The text without its double quotes, written as a filter. *)
Fixpoint without_dquote (s : string) : string :=
  match s with
  | EmptyString => ""
  | String c r =>
      if Ascii.eqb dquote_char c then without_dquote r
      else String c (without_dquote r)
  end.

(** No character of the text is white space. *)
Fixpoint no_space (s : string) : bool :=
  match s with
  | EmptyString => true
  | String c r => negb (isspace c) && no_space r
  end.

(** No character of the text ends a line ([LF] or [CR]). *)
Fixpoint no_newline (s : string) : bool :=
  match s with
  | EmptyString => true
  | String c r =>
      negb (N.eqb (code c) 10) && negb (N.eqb (code c) 13) && no_newline r
  end.

(** The digits of [bytes.hex]: [0-9a-f]. *)
Definition is_lower_hex (c : ascii) : bool :=
  let n := code c in
  (N.leb 48 n && N.leb n 57) || (N.leb 97 n && N.leb n 102).

Fixpoint all_lower_hex (s : string) : bool :=
  match s with
  | EmptyString => true
  | String c r => is_lower_hex c && all_lower_hex r
  end.

(** No byte of the string ends a line. *)
Definition no_newline_bytes (bs : list byte) : bool :=
  forallb (fun b => negb (Byte.eqb b x0a) && negb (Byte.eqb b x0d)) bs.

(** The loop of [run] over the lines of the captured output, as a
    function: the lines decoded and joined, or nothing when one of them
    cannot be decoded. *)
Fixpoint decode_join (lines : list (list byte)) (output : string)
  : option string :=
  match lines with
  | [] => Some output
  | l :: r =>
      match decode_utf8 l with
      | Some text => decode_join r (output +++ text)
      | None => None
      end
  end.

(** The text [run] makes of what it gets from [subprocess.run]: nothing
    captured and nothing printed both give the empty text. *)
Definition captured_text (out : option (list byte)) : option string :=
  match out with
  | Some (b :: bs) => decode_join (splitlines (b :: bs)) ""
  | _ => Some ""
  end.

End Str.

(* ================================================================== *)
(** ** HMAC ([hmac.new(key, msg, hashlib.sha1).hexdigest()]) *)

Module Hmac.
Import Bytes.

Definition xor_byte (k : N) (b : byte) : byte :=
  byte_of_N (N.lxor k (Byte.to_N b)).

(** A key longer than the block is hashed first; the key is then padded
    with zero bytes to the block size. *)
Definition block_key (key : list byte) : list byte :=
  let k := if Nat.ltb Sha1.block_size (List.length key) then Sha1.digest key
           else key in
  k ++ repeat x00 (Sha1.block_size - List.length k).

Definition digest (key msg : list byte) : list byte :=
  let k := block_key key in
  let inner := Sha1.digest (map (xor_byte 0x36) k ++ msg) in
  Sha1.digest (map (xor_byte 0x5C) k ++ inner).

Definition hexdigest (key msg : list byte) : string :=
  Str.hex (digest key msg).

End Hmac.

(** The hexadecimal HMAC-SHA1 of [payload] under the text [secret]. *)
Definition hmac_hex (secret : string) (payload : list byte) : string :=
  Hmac.hexdigest (Str.encode_utf8 secret) payload.

(* ================================================================== *)
(** ** Values, exceptions and effects *)

#[local] Set Warnings "-register-all".

(** Parsed JSON, as [request.get_json()] returns it.  An object is kept
    as the list of its members; a lookup takes the first with the key. *)
Inductive json : Type :=
| JNull
| JBool (b : bool)
| JNum (n : Z)
| JStr (s : string)
| JArr (l : list json)
| JObj (members : list (string * json)).

(** What [subprocess.run] raises itself when no child can be started:
    [IndexError] for an empty list of arguments, and the errors of the
    operating system (no such program, a working directory that is
    missing or is a file, no permission, any other). *)
Inductive os_error : Type :=
| IndexError
| FileNotFoundError
| NotADirectoryError
| PermissionError
| OSError (errno : Z).

(** The exceptions the program can meet. *)
Inductive exn : Type :=
| CommandError (output : string)
| Exception (msg : string)
| KeyError (key : string)
| TypeError (msg : string)
| AttributeError (msg : string)
| UnicodeDecodeError
| NotStarted (e : os_error).

(** What becomes of a call of [subprocess.run]: a child that ran and
    exited, with its exit code and what it wrote to its standard
    streams, or no child at all. *)
Inductive child : Type :=
| Exited (code : Z) (output : list byte)
| Failed (e : os_error).

Inductive result (A : Type) : Type :=
| Ok (a : A)
| Raise (e : exn).
Arguments Ok {A} a.
Arguments Raise {A} e.

(** What the process does to its surroundings, in the order it does it:
    the children it asks the operating system for through
    [subprocess.run], with the arguments and the working directory, and
    the captures of the error-reporting sink. *)
Inductive event : Type :=
| Spawn (argv : list string) (cwd : string)
| CaptureMessage (msg level : string)
| CaptureException (e : exn).

Module Py.

Fixpoint assoc {A} (k : string) (d : list (string * A)) : option A :=
  match d with
  | [] => None
  | (k', v) :: r => if String.eqb k k' then Some v else assoc k r
  end.

(** [bool(v)] *)
Definition truthy (v : json) : bool :=
  match v with
  | JNull => false
  | JBool b => b
  | JNum n => negb (Z.eqb n 0)
  | JStr s => negb (Str.is_empty s)
  | JArr l => match l with [] => false | _ => true end
  | JObj m => match m with [] => false | _ => true end
  end.

(** [v == s] for a text [s] *)
Definition eq_str (v : json) (s : string) : bool :=
  match v with
  | JStr t => String.eqb t s
  | _ => false
  end.

(** [v[key]] *)
Definition getitem (v : json) (key : string) : result json :=
  match v with
  | JObj m =>
      match assoc key m with
      | Some x => Ok x
      | None => Raise (KeyError key)
      end
  | JStr _ => Raise (TypeError "string indices must be integers")
  | JArr _ => Raise (TypeError "list indices must be integers or slices, not str")
  | _ => Raise (TypeError "object is not subscriptable")
  end.

(** [v.get(key)] *)
Definition get (v : json) (key : string) : result json :=
  match v with
  | JObj m =>
      match assoc key m with
      | Some x => Ok x
      | None => Ok JNull
      end
  | _ => Raise (AttributeError "object has no attribute 'get'")
  end.

(** [d[key]] on a dictionary of texts *)
Definition getitem_str (d : list (string * string)) (key : string)
  : result string :=
  match assoc key d with
  | Some x => Ok x
  | None => Raise (KeyError key)
  end.

(** [hmac.compare_digest] on two [str]: both must be ASCII. *)
Definition compare_digest (a b : string) : result bool :=
  if Str.isascii a && Str.isascii b then Ok (String.eqb a b)
  else Raise (TypeError
                "comparing strings with non-ASCII characters is not supported").

End Py.

(* ================================================================== *)
(** ** The program *)

(** The names imported from [gitbot.config]. *)
Record config : Type := Config {
  DRY_RUN : bool;
  ENV : string;
  GETSENTRY_CHECKOUT_PATH : string;
  GETSENTRY_REPO_URL : string;
  GITBOT_API_SECRET : string;
  GITBOT_MARKER : string;
  GITHUB_WEBHOOK_SECRET : string;
  IS_DEV : bool;
  SENTRY_CHECKOUT_PATH : string;
  SENTRY_REPO_UPSTREAM : string;
  SENTRY_REPO_URL : string
}.

(** [subprocess.CompletedProcess], after [run] has replaced [stdout] by
    text. *)
Record execution : Type := Execution {
  returncode : Z;
  stdout : string
}.

(** A command is given to [run] as one text or as a list of arguments. *)
Inductive command : Type :=
| CmdStr (s : string)
| CmdList (l : list string).

(** The two requests: what the handlers read of [flask.request].  The
    JSON value is the parse of the raw body: the two fields of a request
    go together, and a statement about a delivery changes neither
    without the other. *)
Record webhook_request : Type := WebhookRequest {
  hook_data : list byte;                 (* request.data *)
  hook_signature : option string;        (* header X-Hub-Signature *)
  hook_event : option string;            (* header X-GitHub-Event *)
  hook_json : json                       (* request.get_json() *)
}.

(** The body of a revert request is a JSON object with text members. *)
Record revert_request : Type := RevertRequest {
  rev_data : list byte;                  (* request.data *)
  rev_signature : option string;         (* header X-Signature *)
  rev_json : list (string * string)      (* request.get_json() *)
}.

(** What [respond] is given: a text or a dictionary. *)
Inductive reply : Type :=
| RText (s : string)
| RDict (d : list (string * string)).

(** A response: the JSON object sent and the status code. *)
Definition response : Type := (list (string * string) * Z)%type.

Section Program.

(** The world: its state, what becomes there of a call of
    [subprocess.run] (a child with its exit code and the bytes it writes,
    or none when the arguments are empty, the program is missing or the
    working directory is no directory), which paths exist, and the
    directory [tempfile.mkdtemp] creates. *)
Variable W : Type.
Variable spawn : W -> list string -> string -> W * child.
Variable path_exists : W -> string -> bool.
Variable mkdtemp : W -> W * string.

Variable cfg : config.

(** The state threaded through the program: the world, the effects so
    far, and the temporary directories the process has made and not
    removed. *)
Record state : Type := State {
  world : W;
  trace : list event;
  tmpdirs : list string
}.

Definition M (A : Type) : Type := state -> result A * state.

Definition ret {A} (a : A) : M A := fun s => (Ok a, s).
Definition raise {A} (e : exn) : M A := fun s => (Raise e, s).
Definition bind {A B} (m : M A) (k : A -> M B) : M B :=
  fun s => match m s with
           | (Ok a, s') => k a s'
           | (Raise e, s') => (Raise e, s')
           end.
Definition lift {A} (r : result A) : M A := fun s => (r, s).

(** [try: m except CommandError as e: h e] *)
Definition try_command_error {A} (m : M A) (h : exn -> M A) : M A :=
  fun s => match m s with
           | (Raise (CommandError out), s') => h (CommandError out) s'
           | other => other
           end.

Definition emit (e : event) : M unit :=
  fun s => (Ok tt, State (world s) (trace s ++ [e]) (tmpdirs s)).

Notation "x <- m ;; k" := (bind m (fun x => k))
  (at level 61, m at next level, right associativity).
Notation "m ;;; k" := (bind m (fun _ => k))
  (at level 61, right associativity).

(** *** lib.py *)

(** [subprocess.run(new_cmd, cwd=cwd, ...)].  An empty list of
    arguments raises [IndexError] before the operating system is asked
    for anything.  Otherwise the operating system is asked for a child:
    when the child runs, its output comes back only if it is captured
    ([stdout=PIPE], with [stderr] sent to the same pipe), and is [None]
    otherwise; when no child can be started, the call raises. *)
Definition subprocess_run (argv : list string) (cwd : string)
    (capture : bool) : M (Z * option (list byte)) :=
  fun s =>
    match argv with
    | [] => (Raise (NotStarted IndexError), s)
    | _ :: _ =>
        let '(w', outcome) := spawn (world s) argv cwd in
        let s' := State w' (trace s ++ [Spawn argv cwd]) (tmpdirs s) in
        match outcome with
        | Exited rc out => (Ok (rc, if capture then Some out else None), s')
        | Failed e => (Raise (NotStarted e), s')
        end
    end.

Definition quotes_message (cmd : string) : string :=
  "The command " +++ cmd
  +++ " contains double quotes. Pass a list instead of a string.".

(** The loop over [execution.stdout.splitlines()]: each line is decoded
    and appended to [output]. *)
Fixpoint decode_lines (lines : list (list byte)) (output : string)
  : M string :=
  match lines with
  | [] => ret output
  | l :: r =>
      match Str.decode_utf8 l with
      | Some text => decode_lines r (output +++ text)
      | None => raise UnicodeDecodeError
      end
  end.

Definition default_cwd : string := "/tmp".

(** The head of [run]: a text is split at white space, and refused when
    it holds a space followed by a double quote; a list is taken as is. *)
Definition new_cmd_of (cmd : command) : result (list string) :=
  match cmd with
  | CmdStr c =>
      if Str.contains (" " +++ dquote) c
      then Raise (Exception (quotes_message c))
      else Ok (Str.split c)
  | CmdList l => Ok l
  end.

(** [run(cmd, cwd, capture, quiet)].  [quiet] only silences the logger.
    [execution.stderr] is [None] in both branches, so the text of a
    [CommandError] is the stripped output. *)
Definition run (cmd : command) (cwd : string) (capture quiet : bool)
  : M execution :=
  new_cmd <- lift (new_cmd_of cmd) ;;
  completed <- subprocess_run new_cmd cwd capture ;;
  output <- match snd completed with
            | Some (b :: bs) => decode_lines (Str.splitlines (b :: bs)) ""
            | _ => ret ""
            end ;;
  let out := Str.strip output in
  if negb (Z.eqb (fst completed) 0) then raise (CommandError out)
  else ret (Execution (fst completed) out).

Definition os_path_exists (path : string) : M bool :=
  fun s => (Ok (path_exists (world s) path), s).

Definition update_checkout (repo_url checkout : string) : M unit :=
  present <- os_path_exists checkout ;;
  (if negb present then
     run (CmdStr ("git clone " +++ repo_url +++ " " +++ checkout))
         default_cwd false false ;;;
     run (CmdStr "git config pull.rebase false") checkout false false ;;;
     ret tt
   else ret tt) ;;;
  run (CmdStr "git fetch origin master") checkout false false ;;;
  run (CmdStr "git reset --hard origin/master") checkout false false ;;;
  run (CmdStr "git pull origin master") checkout false false ;;;
  ret tt.

(** *** gitbot/deployhook.py *)

(** Modelled from the spec: [run] as [gitbot.lib] exports it.  The
    module [gitbot.lib] that [deployhook.py] imports is not among the
    sources; [lib.py] is an earlier copy of it (no [bump_version], an
    [update_checkout] of two parameters).  The Command Runner of the
    spec "captures or streams output", and [deployhook.py] reads
    [execution.stdout] of what it gets back, so the runner it imports
    captures: it is the [run] of [lib.py] with the output captured.  The
    [update_checkout] that the revert workflow calls, with two
    arguments, is the one of [lib.py]. *)
Definition gitbot_run (cmd : command) (cwd : string) : M execution :=
  run cmd cwd true false.

(** [bump_version] is imported from [gitbot.lib] and is not part of the
    sources at hand: it is a parameter, returning [(updated, reason)]. *)
Variable bump_version : json -> json -> M (bool * string).

Definition capture_message (msg level : string) : M unit :=
  emit (CaptureMessage msg level).

Definition capture_exception (e : exn) : M unit :=
  emit (CaptureException e).

Definition respond (data : reply) (status_code : Z) : M response :=
  let d := match data with
           | RText t => [("reason", t)]
           | RDict d => d
           end in
  (if negb (Z.eqb status_code 200) then
     reason <- lift (Py.getitem_str d "reason") ;;
     capture_message reason "fatal"
   else ret tt) ;;;
  ret (d, status_code).

(** The end of [process_pull_request], from the marker test on. *)
Definition deploy_sync (pull_request head : json) : M response :=
  body_value <- lift (Py.getitem pull_request "body") ;;
  body <- (if Py.truthy body_value then
             match body_value with
             | JStr t => ret t
             | _ => raise (AttributeError "object has no attribute 'find'")
             end
           else ret "") ;;
  if Z.eqb (Str.find body (GITBOT_MARKER cfg)) (-1) then
    respond (RText "Deploy marker not found.") 200
  else
    ref_sha <- lift (Py.getitem head "sha") ;;
    branch <- lift (Py.getitem head "ref") ;;
    if Py.truthy ref_sha then
      bumped <- bump_version branch ref_sha ;;
      respond (RText (snd bumped)) (if fst bumped then 200 else 400)
    else respond (RText "Commit not relevant for deploy sync.") 200.

Definition process_pull_request (data : json) : M response :=
  action <- lift (Py.get data "action") ;;
  if negb (Py.eq_str action "synchronize" || Py.eq_str action "opened") then
    respond (RText "Unsupported action for pull_request event.") 200
  else
    pull_request <- lift (Py.getitem data "pull_request") ;;
    head <- lift (Py.getitem pull_request "head") ;;
    base <- lift (Py.getitem pull_request "base") ;;
    if negb (IS_DEV cfg) then
      repository <- lift (Py.getitem data "repository") ;;
      full_name <- lift (Py.getitem repository "full_name") ;;
      if negb (Py.eq_str full_name (SENTRY_REPO_UPSTREAM cfg)) then
        respond (RText "Unknown repository") 200
      else
        head_repo <- lift (Py.getitem head "repo") ;;
        head_name <- lift (Py.getitem head_repo "full_name") ;;
        foreign <- (if negb (Py.eq_str head_name (SENTRY_REPO_UPSTREAM cfg))
                    then ret true
                    else
                      base_repo <- lift (Py.getitem base "repo") ;;
                      base_name <- lift (Py.getitem base_repo "full_name") ;;
                      ret (negb (Py.eq_str base_name
                                   (SENTRY_REPO_UPSTREAM cfg)))) ;;
        if foreign then respond (RText "Invalid head or base repos.") 200
        else
          merged <- lift (Py.getitem pull_request "merged") ;;
          if Py.truthy merged then
            respond (RText "Pull request is already merged.") 200
          else deploy_sync pull_request head
    else if String.eqb (ENV cfg) "staging" then
      respond (RText "We do not support this for staging.") 200
    else deploy_sync pull_request head.

Definition valid_payload (secret : string) (payload : list byte)
    (signature : string) : result bool :=
  let payload_signature :=
    Hmac.hexdigest (Str.encode_utf8 secret) payload in
  Py.compare_digest payload_signature signature.

(** [str(request.headers.get(name, "").replace("sha1=", ""))] *)
Definition header_signature (h : option string) : string :=
  Str.replace (match h with Some v => v | None => "" end) "sha1=" "".

(** [secret and not valid_payload(secret, data, signature)] *)
Definition rejected (secret : string) (data : list byte)
    (h : option string) : M bool :=
  if Str.is_empty secret then ret false
  else
    valid <- lift (valid_payload secret data (header_signature h)) ;;
    ret (negb valid).

Definition option_eqb (o : option string) (t : string) : bool :=
  match o with
  | Some v => String.eqb v t
  | None => false
  end.

Definition index (req : webhook_request) : M response :=
  bad <- rejected (GITHUB_WEBHOOK_SECRET cfg) (hook_data req)
                  (hook_signature req) ;;
  if bad then respond (RText "Cannot validate payload signature.") 403
  else if option_eqb (hook_event req) "pull_request" then
    process_pull_request (hook_json req)
  else respond (RText "Unsupported event type.") 200.

Definition tempfile_mkdtemp : M string :=
  fun s =>
    let '(w', d) := mkdtemp (world s) in
    (Ok d, State w' (trace s) (d :: tmpdirs s)).

Definition git_log_subject (sha : string) : string :=
  "git log -1 --format=" +++ dquote +++ "%s" +++ dquote +++ " " +++ sha.

Definition revert_commit (subject sha name : string) : list string :=
  ["git"; "commit";
   "-m"; "Revert " +++ dquote +++ subject +++ dquote;
   "-m"; "This reverts commit " +++ sha +++ ".";
   "-m"; "Co-authored-by: " +++ name].

Definition process_git_revert (req : revert_request) : M response :=
  let data := rev_json req in
  repo <- lift (Py.getitem_str data "repo") ;;
  sha <- lift (Py.getitem_str data "sha") ;;
  _ <- lift (Py.getitem_str data "name") ;;
  name <- lift (Py.getitem_str data "name") ;;
  tmp_dir <- tempfile_mkdtemp ;;
  let repo_url := if String.eqb repo "sentry" then SENTRY_REPO_URL cfg
                  else GETSENTRY_REPO_URL cfg in
  let checkout := if String.eqb repo "sentry" then SENTRY_CHECKOUT_PATH cfg
                  else GETSENTRY_CHECKOUT_PATH cfg in
  update_checkout repo_url checkout ;;;
  gitbot_run (CmdStr ("git clone " +++ checkout +++ " " +++ tmp_dir))
             default_cwd ;;;
  execution <- gitbot_run (CmdStr (git_log_subject sha)) tmp_dir ;;
  let subject := Str.replace (stdout execution) dquote "" in
  if String.eqb repo "getsentry"
     && Str.startswith subject "getsentry/sentry@" then
    respond (RText (sha +++
      " cannot be reverted because it needs to be reverted in Sentry")) 400
  else
    gitbot_run (CmdStr ("git revert --no-commit " +++ sha)) tmp_dir ;;;
    gitbot_run (CmdList (revert_commit subject sha name)) tmp_dir ;;;
    let push_args := "git push " +++ repo_url
                     +++ (if DRY_RUN cfg then " --dry-run" else "") in
    gitbot_run (CmdStr push_args) tmp_dir ;;;
    tip <- gitbot_run (CmdStr "git rev-parse origin/master") tmp_dir ;;
    respond (RDict [("reason", sha +++ " reverted.");
                    ("revert_sha", stdout tip)]) 200.

Definition revert (req : revert_request) : M response :=
  bad <- rejected (GITBOT_API_SECRET cfg) (rev_data req)
                  (rev_signature req) ;;
  if bad then respond (RText "Cannot validate payload signature.") 403
  else
    try_command_error (process_git_revert req)
      (fun e =>
         capture_exception e ;;;
         respond (RText "Failed to revert.") 400).

End Program.

Arguments State {W} world trace tmpdirs.
Arguments world {W} s.
Arguments trace {W} s.
Arguments tmpdirs {W} s.
Arguments ret {W A} a s.
Arguments raise {W A} e s.
Arguments bind {W A B} m k s.
Arguments lift {W A} r s.
Arguments emit {W} e s.
Arguments try_command_error {W A} m h s.
Arguments subprocess_run {W} spawn argv cwd capture s.
Arguments decode_lines {W} lines output s.
Arguments run {W} spawn cmd cwd capture quiet s.
Arguments os_path_exists {W} path_exists path s.
Arguments update_checkout {W} spawn path_exists repo_url checkout s.
Arguments capture_message {W} msg level s.
Arguments capture_exception {W} e s.
Arguments respond {W} data status_code s.
Arguments deploy_sync {W} cfg bump_version pull_request head s.
Arguments process_pull_request {W} cfg bump_version data s.
Arguments gitbot_run {W} spawn cmd cwd s.
Arguments rejected {W} secret data h s.
Arguments index {W} cfg bump_version req s.
Arguments tempfile_mkdtemp {W} mkdtemp s.
Arguments process_git_revert {W} spawn path_exists mkdtemp cfg req s.
Arguments revert {W} spawn path_exists mkdtemp cfg req s.

(** The commands of one synchronisation, in order: the clone and the pull
    setting when the checkout is absent, then fetch, reset and pull. *)
Definition sync_plan (present : bool) (repo_url checkout : string)
  : list event :=
  (if present then []
   else [Spawn (Str.split ("git clone " +++ repo_url +++ " " +++ checkout))
               default_cwd;
         Spawn ["git"; "config"; "pull.rebase"; "false"] checkout])
  ++ [Spawn ["git"; "fetch"; "origin"; "master"] checkout;
      Spawn ["git"; "reset"; "--hard"; "origin/master"] checkout;
      Spawn ["git"; "pull"; "origin"; "master"] checkout].

(** The child processes of a revert that goes through, after those of
    the synchronisation: the clone into the temporary directory, the log
    query, the revert, the commit with the subject that [run] handed
    back, the push and the query of the tip. *)
Definition revert_plan (dry_run : bool) (repo_url checkout tmp_dir : string)
    (subject sha name : string) : list event :=
  [Spawn (Str.split ("git clone " +++ checkout +++ " " +++ tmp_dir))
         default_cwd;
   Spawn (Str.split (git_log_subject sha)) tmp_dir;
   Spawn (Str.split ("git revert --no-commit " +++ sha)) tmp_dir;
   Spawn (revert_commit subject sha name) tmp_dir;
   Spawn (Str.split ("git push " +++ repo_url
                     +++ (if dry_run then " --dry-run" else ""))) tmp_dir;
   Spawn ["git"; "rev-parse"; "origin/master"] tmp_dir].

(** A computation that leaves the temporary directories of the process
    as they are, whatever its outcome. *)
Definition keeps_tmpdirs {W A} (m : M W A) : Prop :=
  forall s, tmpdirs (snd (m s)) = tmpdirs s.

(** The entries of the trace that are child processes. *)
Definition is_spawn (e : event) : bool :=
  match e with
  | Spawn _ _ => true
  | _ => false
  end.

(** The working directory of a child process. *)
Definition spawned_in (dirs : list string) (e : event) : Prop :=
  match e with
  | Spawn _ cwd => In cwd dirs
  | _ => True
  end.

(** What [run] makes of the outcome of [subprocess.run]: the error of a
    child that did not start, [UnicodeDecodeError] for captured output
    that cannot be decoded, [CommandError] with the stripped text for an
    exit code other than 0, and the execution otherwise. *)
Definition run_outcome (capture : bool) (c : child) : result execution :=
  match c with
  | Failed e => Raise (NotStarted e)
  | Exited code out =>
      match Str.captured_text (if capture then Some out else None) with
      | None => Raise UnicodeDecodeError
      | Some text =>
          if negb (Z.eqb code 0) then Raise (CommandError (Str.strip text))
          else Ok (Execution code (Str.strip text))
      end
  end.

(** How a plan carried out in a world ends. *)
Inductive plan_end : Type :=
| Completed
| Stopped (e : exn).

(** A plan carried out in a world, without capture: the commands are
    started one after the other, and the first that cannot be started or
    that exits with a code other than 0 ends the run.  The result is how
    it ended, the world it left and the calls it made. *)
Fixpoint carry_out {W} (spawn : W -> list string -> string -> W * child)
    (plan : list event) (w : W) : plan_end * W * list event :=
  match plan with
  | [] => (Completed, w, [])
  | Spawn argv cwd :: rest =>
      match spawn w argv cwd with
      | (w1, Exited code _) =>
          if Z.eqb code 0 then
            let '(e, w2, calls) := carry_out spawn rest w1 in
            (e, w2, Spawn argv cwd :: calls)
          else (Stopped (CommandError ""), w1, [Spawn argv cwd])
      | (w1, Failed e) => (Stopped (NotStarted e), w1, [Spawn argv cwd])
      end
  | _ :: rest => carry_out spawn rest w
  end.

Definition plan_result (e : plan_end) : result unit :=
  match e with
  | Completed => Ok tt
  | Stopped x => Raise x
  end.

(** What a computation that carries out a plan leaves: the result, the
    world after the last call, the calls added to the trace. *)
Definition plan_outcome {W} (spawn : W -> list string -> string -> W * child)
    (plan : list event) (s : state W) : result unit * state W :=
  let '(e, w', calls) := carry_out spawn plan (world s) in
  (plan_result e, State w' (trace s ++ calls) (tmpdirs s)).

(* ================================================================== *)
(** ** The event classifier of the specification *)

Module Classifier.

(** A pull request event: the members of the payload that the handler
    reads. *)
Record pull_event : Type := PullEvent {
  action : string;
  repository : string;
  head_repository : string;
  base_repository : string;
  merged : bool;
  body : option string;
  head_sha : option string;
  head_branch : string
}.

Definition optional (o : option string) : json :=
  match o with
  | Some t => JStr t
  | None => JNull
  end.

Definition named (full_name : string) : json :=
  JObj [("full_name", JStr full_name)].

(** The payload GitHub sends for the event. *)
Definition payload (e : pull_event) : json :=
  JObj [("action", JStr (action e));
        ("repository", named (repository e));
        ("pull_request",
         JObj [("head", JObj [("repo", named (head_repository e));
                              ("sha", optional (head_sha e));
                              ("ref", JStr (head_branch e))]);
               ("base", JObj [("repo", named (base_repository e))]);
               ("merged", JBool (merged e));
               ("body", optional (body e))])].

Inductive reason : Type :=
| UnsupportedAction
| UnknownRepository
| InvalidRepositories
| AlreadyMerged
| UnsupportedStage
| MarkerNotFound
| NotRelevant.




End Classifier.

(* ================================================================== *)
(** ** lib.py, the alias for the two repositories *)

Module Lib.

(** The names [lib.py] takes from [config]. *)
Record config : Type := Config {
  SENTRY_REPO_WITH_PAT : string;
  SENTRY_CHECKOUT_PATH : string;
  GETSENTRY_REPO_WITH_PAT : string;
  GETSENTRY_CHECKOUT_PATH : string
}.

Section Alias.

Variable W : Type.
Variable spawn : W -> list string -> string -> W * child.
Variable path_exists : W -> string -> bool.
Variable cfg : config.

Definition update_primary_repo (repo : string) : M W unit :=
  if String.eqb repo "sentry" then
    update_checkout spawn path_exists
      (SENTRY_REPO_WITH_PAT cfg) (SENTRY_CHECKOUT_PATH cfg)
  else
    update_checkout spawn path_exists
      (GETSENTRY_REPO_WITH_PAT cfg) (GETSENTRY_CHECKOUT_PATH cfg).

End Alias.

Arguments update_primary_repo {W} spawn path_exists cfg repo s.

End Lib.

(* ================================================================== *)
(** ** The version bump command *)

Module Bump.

(** The author of a commit, as the payload of an event carries it. *)
Record author : Type := Author {
  name : string;
  email : string
}.

(** Modelled from the spec: [extract_author] of [gitbot.lib], which is
    not among the sources; only its test, [tests/test_version_bump.py],
    is.  The author text is the display name without its double quotes,
    a space, and the address between angle brackets; without author
    metadata there is no text. *)
Definition extract_author (a : option author) : option string :=
  match a with
  | Some a =>
      Some (Str.replace (name a) dquote "" +++ " <" +++ email a +++ ">")
  | None => None
  end.

(** Modelled from the spec: [bump_command] of [gitbot.lib], which is not
    among the sources.  The command is the path of the tool and the head
    sha, followed by [--author] and the author text when there is one. *)
Definition bump_command (bump_sentry_path ref_sha : string)
    (author : option string) : list string :=
  [bump_sentry_path; ref_sha]
  ++ match author with
     | Some a => ["--author"; a]
     | None => []
     end.

End Bump.

(* ================================================================== *)
(** ** Worlds to run the program in *)

Module Demo.

Definition bytes_of_string (s : string) : list byte :=
  map byte_of_ascii (list_ascii_of_string s).

(** What git prints, by sub-command: the subject of the commit, between
    the quotes of the format, for [log]; the tip for [rev-parse]. *)
Definition printed (subject tip : string) (argv : list string)
  : list byte :=
  match argv with
  | _ :: sub :: _ =>
      if String.eqb sub "log"
      then Str.encode_utf8 (dquote +++ subject +++ dquote) ++ [x0a]
      else if String.eqb sub "rev-parse"
      then Str.encode_utf8 tip ++ [x0a]
      else []
  | _ => []
  end.

(** A world whose state counts the child processes started so far; the
    child of rank [failing] (if any) exits with code 1, the others with
    code 0. *)
Definition spawn (subject tip : string) (failing : option nat)
    (w : nat) (argv : list string) (cwd : string)
  : nat * child :=
  (S w,
   Exited (match failing with
           | Some k => if Nat.eqb k w then 1%Z else 0%Z
           | None => 0%Z
           end)
          (printed subject tip argv)).

Definition path_exists (present : bool) (w : nat) (path : string) : bool :=
  present.

Definition mkdtemp (w : nat) : nat * string := (w, "/tmp/tmpk3v9x_2a").

Definition start : state nat := State 0%nat [] [].

Definition cfg : config :=
  {| DRY_RUN := true;
     ENV := "production";
     GETSENTRY_CHECKOUT_PATH := "/tmp/getsentry";
     GETSENTRY_REPO_URL := "https://example.org/getsentry/getsentry";
     GITBOT_API_SECRET := "api-secret";
     GITBOT_MARKER := "#sync-getsentry";
     GITHUB_WEBHOOK_SECRET := "hook-secret";
     IS_DEV := false;
     SENTRY_CHECKOUT_PATH := "/tmp/sentry";
     SENTRY_REPO_UPSTREAM := "getsentry/sentry";
     SENTRY_REPO_URL := "https://example.org/getsentry/sentry" |}.

(** The configuration of a development instance, without secrets. *)
Definition dev_cfg (env : string) : config :=
  {| DRY_RUN := false;
     ENV := env;
     GETSENTRY_CHECKOUT_PATH := "/tmp/getsentry-test";
     GETSENTRY_REPO_URL := "https://example.org/test/getsentry";
     GITBOT_API_SECRET := "";
     GITBOT_MARKER := "#sync-getsentry";
     GITHUB_WEBHOOK_SECRET := "";
     IS_DEV := true;
     SENTRY_CHECKOUT_PATH := "/tmp/sentry-test";
     SENTRY_REPO_UPSTREAM := "getsentry/sentry";
     SENTRY_REPO_URL := "https://example.org/test/sentry" |}.

(** A world in which every child prints [text] and exits with [code]. *)
Definition echo (code : Z) (text : string)
    (w : nat) (argv : list string) (cwd : string)
  : nat * child :=
  (S w, Exited code (Str.encode_utf8 text)).

(** A [bump_version] that touches nothing and reports what it is told
    to. *)
Definition bump_version (updated : bool) (reason : string)
    (branch ref_sha : json) : M nat (bool * string) :=
  ret (updated, reason).

Definition quoted (s : string) : string := dquote +++ s +++ dquote.

(** The text of a JSON object with text members. *)
Fixpoint members_text (d : list (string * string)) : string :=
  match d with
  | [] => ""
  | (k, v) :: r =>
      quoted k +++ ": " +++ quoted v
      +++ match r with
          | [] => ""
          | _ => ", " +++ members_text r
          end
  end.

Definition object_text (d : list (string * string)) : string :=
  "{" +++ members_text d +++ "}".

(** A signed revert request for [sha] in [repo], asked by Jane Doe. *)
Definition revert_members (repo sha : string) : list (string * string) :=
  [("repo", repo); ("sha", sha); ("name", "Jane Doe")].

Definition revert_body (repo sha : string) : list byte :=
  bytes_of_string (object_text (revert_members repo sha)).

Definition signed_revert (repo sha : string) : revert_request :=
  {| rev_data := revert_body repo sha;
     rev_signature :=
       Some ("sha1=" +++ hmac_hex (GITBOT_API_SECRET cfg)
                           (revert_body repo sha));
     rev_json := revert_members repo sha |}.

(** A webhook delivery with a signature that is not the digest. *)
Definition forged_delivery : webhook_request :=
  {| hook_data := bytes_of_string "{}";
     hook_signature := Some "sha1=0000000000000000000000000000000000000000";
     hook_event := Some "pull_request";
     hook_json := JObj [] |}.

Definition upstream : json := JObj [("full_name", JStr "getsentry/sentry")].

Definition head_commit : json :=
  JObj [("repo", upstream); ("sha", JStr "4b825dc642cb");
        ("ref", JStr "feat/search")].

Definition base_commit : json :=
  JObj [("repo", upstream); ("sha", JStr "83baae61804e");
        ("ref", JStr "master")].

(** A pull request of the upstream repository, with the marker in its
    body. *)
Definition pull_request (merged : bool) : json :=
  JObj [("head", head_commit);
        ("base", base_commit);
        ("merged", JBool merged);
        ("body", JStr "Fix the parser. #sync-getsentry")].

Definition pull_request_event (merged : bool) : json :=
  JObj [("action", JStr "opened");
        ("repository", upstream);
        ("pull_request", pull_request merged)].

End Demo.

(* ================================================================== *)
(** ** Checks of the primitives against published values *)

Example sha1_abc :
  Str.hex (Sha1.digest (Demo.bytes_of_string "abc"))
  = "a9993e364706816aba3e25717850c26c9cd0d89d".
Proof. vm_compute. reflexivity. Qed.

Example sha1_empty :
  Str.hex (Sha1.digest []) = "da39a3ee5e6b4b0d3255bfef95601890afd80709".
Proof. vm_compute. reflexivity. Qed.

Example sha1_two_blocks :
  Str.hex (Sha1.digest (Demo.bytes_of_string
    "abcdbcdecdefdefgefghfghighijhijkijkljklmklmnlmnomnopnopq"))
  = "84983e441c3bd26ebaae4aa1f95129e5e54670f1".
Proof. vm_compute. reflexivity. Qed.

Example hmac_sha1_fox :
  Hmac.hexdigest (Demo.bytes_of_string "key")
    (Demo.bytes_of_string "The quick brown fox jumps over the lazy dog")
  = "de7c9b85b8b78aa6bc8a7a36f70a90701c9db4d9".
Proof. vm_compute. reflexivity. Qed.

Example hmac_sha1_empty :
  Hmac.hexdigest [] [] = "fbdb1d1b18aa6c08324b7d64b71fb76370690e1d".
Proof. vm_compute. reflexivity. Qed.

Example split_git_log :
  Str.split (git_log_subject "abc12")
  = ["git"; "log"; "-1"; "--format=" +++ dquote +++ "%s" +++ dquote; "abc12"].
Proof. vm_compute. reflexivity. Qed.

Example split_runs_of_space :
  Str.split "  git   fetch origin master " = ["git"; "fetch"; "origin"; "master"].
Proof. vm_compute. reflexivity. Qed.

Example replace_prefix_marker :
  Str.replace "sha1=absha1=sha1" "sha1=" "" = "absha1".
Proof. vm_compute. reflexivity. Qed.

Example replace_empty_pattern : Str.replace "abc" "" "-" = "-a-b-c-".
Proof. vm_compute. reflexivity. Qed.

Example replace_no_overlap : Str.replace "aaa" "aa" "b" = "ba".
Proof. vm_compute. reflexivity. Qed.

Example strip_both_ends : Str.strip "  a b  " = "a b".
Proof. vm_compute. reflexivity. Qed.

Example find_marker : Str.find "hello #sync" "#sync" = 6%Z.
Proof. vm_compute. reflexivity. Qed.

Example find_absent : Str.find "hello" "#sync" = (-1)%Z.
Proof. vm_compute. reflexivity. Qed.

(* ================================================================== *)
(** ** Facts about text *)

Lemma isascii_app (a b : string) :
  Str.isascii (a +++ b) = Str.isascii a && Str.isascii b.
Proof.
  induction a as [|c a IH]; simpl; [reflexivity|].
  rewrite IH. apply andb_assoc.
Qed.

Lemma hex_byte_isascii (b : byte) : Str.isascii (Str.hex_byte b) = true.
Proof. destruct b; reflexivity. Qed.

Lemma hex_isascii (bs : list byte) : Str.isascii (Str.hex bs) = true.
Proof.
  induction bs as [|b bs IH]; [reflexivity|].
  cbn [Str.hex]. rewrite isascii_app, hex_byte_isascii, IH. reflexivity.
Qed.

Lemma replace_dquote (s : string) :
  Str.replace s dquote "" = Str.without_dquote s.
Proof.
  unfold Str.replace, dquote. cbn [Str.is_empty].
  induction s as [|c r IH]; [reflexivity|].
  cbn [Str.replace_from Str.without_dquote String.prefix String.length
       Nat.sub].
  destruct (ascii_dec dquote_char c) as [E|E].
  - subst c. rewrite Ascii.eqb_refl.
    replace (String.prefix "" r) with true by (destruct r; reflexivity).
    cbn [String.append]. exact IH.
  - destruct (Ascii.eqb_spec dquote_char c) as [E'|_]; [contradiction|].
    rewrite IH. reflexivity.
Qed.

Lemma without_dquote_clean (s : string) :
  Str.occurs dquote_char (Str.without_dquote s) = false.
Proof.
  induction s as [|c r IH]; [reflexivity|].
  cbn [Str.without_dquote].
  destruct (Ascii.eqb dquote_char c) eqn:E; [exact IH|].
  cbn [Str.occurs]. rewrite E, IH. reflexivity.
Qed.

Lemma without_dquote_id (s : string) :
  Str.occurs dquote_char s = false -> Str.without_dquote s = s.
Proof.
  induction s as [|c r IH]; [reflexivity|].
  cbn [Str.occurs Str.without_dquote]. intros H.
  apply orb_false_iff in H as [H1 H2].
  rewrite H1, (IH H2). reflexivity.
Qed.

(* ================================================================== *)
(** ** The signature verifier *)

Lemma hmac_hex_isascii (secret : string) (payload : list byte) :
  Str.isascii (hmac_hex secret payload) = true.
Proof. apply hex_isascii. Qed.

(** C1, as the code has it: [valid_payload] returns [True] on the
    hexadecimal HMAC-SHA1 of the payload under the secret, and returns
    [False] on every other signature made of ASCII characters. *)
Theorem valid_payload_accepts_only_digest
    (secret : string) (payload : list byte) (signature : string) :
  valid_payload secret payload (hmac_hex secret payload) = Ok true
  /\ (Str.isascii signature = true ->
      signature <> hmac_hex secret payload ->
      valid_payload secret payload signature = Ok false).
Proof.
  unfold valid_payload, Py.compare_digest. fold (hmac_hex secret payload).
  rewrite hmac_hex_isascii. split.
  - cbn [andb]. rewrite String.eqb_refl. reflexivity.
  - intros Hascii Hneq. rewrite Hascii. cbn [andb].
    destruct (String.eqb_spec (hmac_hex secret payload) signature) as [E|_].
    + symmetry in E. contradiction.
    + reflexivity.
Qed.

Lemma valid_payload_accepts_only_digest_witness :
  valid_payload "hook-secret" (Demo.bytes_of_string "{}")
    (hmac_hex "hook-secret" (Demo.bytes_of_string "{}")) = Ok true
  /\ valid_payload "hook-secret" (Demo.bytes_of_string "{}")
       "0000000000000000000000000000000000000000" = Ok false.
Proof.
  split.
  - apply (valid_payload_accepts_only_digest "hook-secret"
             (Demo.bytes_of_string "{}") "").
  - apply (valid_payload_accepts_only_digest "hook-secret"
             (Demo.bytes_of_string "{}")
             "0000000000000000000000000000000000000000").
    + reflexivity.
    + vm_compute. discriminate.
Defined.

(** C1 as stated fails: a signature holding a character outside ASCII
    differs from the digest, and the comparison raises [TypeError]
    instead of returning [False]. *)
Lemma valid_payload_non_ascii_signature_raises :
  let signature := String (ascii_of_nat 233) "" in
  signature <> hmac_hex "hook-secret" []
  /\ valid_payload "hook-secret" [] signature
     = Raise (TypeError
         "comparing strings with non-ASCII characters is not supported")
  /\ valid_payload "hook-secret" [] signature <> Ok false.
Proof.
  cbv zeta. split; [|split].
  - vm_compute. discriminate.
  - vm_compute. reflexivity.
  - vm_compute. discriminate.
Qed.

(* ================================================================== *)
(** ** The version bump command *)

(** The author of the test of the repository gives the author text the
    test expects. *)
Example extract_author_test :
  Bump.extract_author
    (Some (Bump.Author ("Aniket Das " +++ dquote +++ "Tekky")
       "85517732+AniketDas-Tekky@users.noreply.github.com"))
  = Some
      "Aniket Das Tekky <85517732+AniketDas-Tekky@users.noreply.github.com>".
Proof. vm_compute. reflexivity. Qed.

Example bump_command_test :
  Bump.bump_command "tests/bin/bump-sentry" "foo"
    (Bump.extract_author
       (Some (Bump.Author ("Aniket Das " +++ dquote +++ "Tekky")
          "85517732+AniketDas-Tekky@users.noreply.github.com")))
  = ["tests/bin/bump-sentry"; "foo"; "--author";
     "Aniket Das Tekky <85517732+AniketDas-Tekky@users.noreply.github.com>"].
Proof. vm_compute. reflexivity. Qed.

(** C9: the author text is the display name with its double quotes
    dropped (none is left, the other characters stay in place), a space,
    and the address between angle brackets; and a bump command built
    without an author is the tool path and the head sha, two arguments,
    with no [--author] flag and no author after it. *)
Theorem bump_author_and_command
    (display_name address tool ref_sha : string) :
  Bump.extract_author (Some (Bump.Author display_name address))
  = Some (Str.without_dquote display_name +++ " <" +++ address +++ ">")
  /\ Str.occurs dquote_char (Str.without_dquote display_name) = false
  /\ Bump.bump_command tool ref_sha (Bump.extract_author None)
     = [tool; ref_sha]
  /\ List.length (Bump.bump_command tool ref_sha (Bump.extract_author None))
     = 2%nat.
Proof.
  split; [|split; [|split]].
  - cbn [Bump.extract_author Bump.name Bump.email].
    rewrite replace_dquote. reflexivity.
  - apply without_dquote_clean.
  - reflexivity.
  - reflexivity.
Qed.

(* ================================================================== *)
(** ** More about text and signatures *)

Lemma split_from_app_space (a b cur : string) (c : ascii) :
  Str.isspace c = true ->
  Str.split_from (a +++ String c b) cur
  = Str.split_from a cur ++ Str.split_from b "".
Proof.
  intros Hc. revert cur. induction a as [|x a IH]; intros cur.
  - cbn [String.append Str.split_from]. rewrite Hc.
    destruct (Str.is_empty cur); reflexivity.
  - cbn [String.append Str.split_from].
    destruct (Str.isspace x).
    + destruct (Str.is_empty cur); rewrite IH; reflexivity.
    + apply IH.
Qed.

Lemma split_app_space (a b : string) :
  Str.split (a +++ String " " b) = Str.split a ++ Str.split b.
Proof. apply split_from_app_space. reflexivity. Qed.

Lemma append_assoc (a b c : string) : (a +++ b) +++ c = a +++ (b +++ c).
Proof.
  induction a as [|x a IH]; [reflexivity|].
  cbn [String.append]. rewrite IH. reflexivity.
Qed.

Lemma append_empty_r (a : string) : a +++ "" = a.
Proof.
  induction a as [|x a IH]; [reflexivity|].
  cbn [String.append]. rewrite IH. reflexivity.
Qed.

Lemma split_from_word (w cur : string) :
  Str.no_space w = true ->
  Str.is_empty (cur +++ w) = false ->
  Str.split_from w cur = [cur +++ w].
Proof.
  revert cur. induction w as [|x w IH]; intros cur Hw Hne.
  - cbn [Str.split_from]. rewrite append_empty_r in *. rewrite Hne.
    reflexivity.
  - cbn [Str.no_space] in Hw. apply andb_true_iff in Hw as [Hx Hw].
    cbn [Str.split_from]. apply negb_true_iff in Hx. rewrite Hx.
    rewrite IH.
    + rewrite append_assoc. reflexivity.
    + exact Hw.
    + rewrite append_assoc. exact Hne.
Qed.

(** A text without white space that is not empty is one word. *)
Lemma split_word (w : string) :
  Str.no_space w = true -> Str.is_empty w = false -> Str.split w = [w].
Proof. intros Hw Hne. exact (split_from_word w "" Hw Hne). Qed.

Lemma length_append (a b : string) :
  String.length (a +++ b) = (String.length a + String.length b)%nat.
Proof.
  induction a as [|x a IH]; [reflexivity|].
  cbn [String.append String.length]. rewrite IH. reflexivity.
Qed.

Lemma length_hex (bs : list byte) :
  String.length (Str.hex bs) = (2 * List.length bs)%nat.
Proof.
  induction bs as [|b bs IH]; [reflexivity|].
  cbn [Str.hex]. rewrite length_append, IH.
  cbn [Str.hex_byte String.length List.length]. lia.
Qed.

Lemma length_be_bytes (len : nat) (n : N) :
  List.length (Bytes.be_bytes len n) = len.
Proof.
  induction len as [|k IH]; [reflexivity|].
  cbn [Bytes.be_bytes List.length]. rewrite IH. reflexivity.
Qed.

Lemma length_sha1 (msg : list byte) : List.length (Sha1.digest msg) = 20%nat.
Proof.
  unfold Sha1.digest. cbv zeta.
  rewrite !length_app, !length_be_bytes. reflexivity.
Qed.

Lemma all_lower_hex_app (a b : string) :
  Str.all_lower_hex (a +++ b) = Str.all_lower_hex a && Str.all_lower_hex b.
Proof.
  induction a as [|c a IH]; [reflexivity|].
  cbn [String.append Str.all_lower_hex]. rewrite IH. apply andb_assoc.
Qed.

Lemma hex_byte_lower (b : byte) : Str.all_lower_hex (Str.hex_byte b) = true.
Proof. destruct b; reflexivity. Qed.

Lemma hex_lower (bs : list byte) : Str.all_lower_hex (Str.hex bs) = true.
Proof.
  induction bs as [|b bs IH]; [reflexivity|].
  cbn [Str.hex]. rewrite all_lower_hex_app, hex_byte_lower, IH. reflexivity.
Qed.

Lemma ok_inj {A} (a b : A) : Ok a = Ok b -> a = b.
Proof. intros H. inversion H. reflexivity. Qed.

(** X1: a signature that [valid_payload] accepts is the digest itself:
    forty characters, each a decimal digit or a letter from a to f in
    lower case.  A digest in upper case, or a shortened one, is never
    accepted. *)
Theorem accepted_signature_shape
    (secret : string) (payload : list byte) (signature : string) :
  valid_payload secret payload signature = Ok true ->
  signature = hmac_hex secret payload
  /\ String.length signature = 40%nat
  /\ Str.all_lower_hex signature = true.
Proof.
  unfold valid_payload, Py.compare_digest. fold (hmac_hex secret payload).
  destruct (Str.isascii (hmac_hex secret payload) && Str.isascii signature);
    [|discriminate].
  intros H. apply ok_inj in H. apply String.eqb_eq in H. subst signature.
  split; [reflexivity|]. split.
  - unfold hmac_hex, Hmac.hexdigest, Hmac.digest. cbv zeta.
    rewrite length_hex, length_sha1. reflexivity.
  - apply hex_lower.
Qed.

Lemma occurs_hex_byte_s (b : byte) :
  Str.occurs "s"%char (Str.hex_byte b) = false.
Proof. destruct b; reflexivity. Qed.

Lemma occurs_app (c : ascii) (a b : string) :
  Str.occurs c (a +++ b) = Str.occurs c a || Str.occurs c b.
Proof.
  induction a as [|x a IH]; [reflexivity|].
  cbn [String.append Str.occurs]. rewrite IH. apply orb_assoc.
Qed.

Lemma occurs_hex_s (bs : list byte) :
  Str.occurs "s"%char (Str.hex bs) = false.
Proof.
  induction bs as [|b bs IH]; [reflexivity|].
  cbn [Str.hex]. rewrite occurs_app, occurs_hex_byte_s, IH. reflexivity.
Qed.

(** A text in which the letter s does not occur holds no "sha1=" to
    replace. *)
Lemma replace_sha1_absent (t : string) :
  Str.occurs "s"%char t = false ->
  Str.replace_from "sha1=" "" t 0 = t.
Proof.
  induction t as [|c t IH]; [reflexivity|].
  cbn [Str.occurs]. intros H. apply orb_false_iff in H as [Hc Ht].
  cbn [Str.replace_from String.prefix].
  destruct (ascii_dec "s"%char c) as [E|E].
  - subst c. rewrite Ascii.eqb_refl in Hc. discriminate.
  - rewrite (IH Ht). reflexivity.
Qed.

Lemma header_signature_prefixed (t : string) :
  Str.occurs "s"%char t = false ->
  header_signature (Some ("sha1=" +++ t)) = t
  /\ header_signature (Some t) = t.
Proof.
  intros H. unfold header_signature, Str.replace. cbn [Str.is_empty].
  split; [|apply replace_sha1_absent; exact H].
  cbn [String.append Str.replace_from String.prefix String.length Nat.sub].
  repeat (match goal with
          | |- context [ascii_dec ?a ?b] =>
              destruct (ascii_dec a b) as [_|N]; [|exfalso; apply N; reflexivity]
          end).
  replace (String.prefix "" t) with true by (destruct t; reflexivity).
  cbn [String.append]. apply replace_sha1_absent. exact H.
Qed.

(** [find] and [in] agree: the index is -1 exactly when the text does
    not hold the pattern. *)
Lemma find_from_lower (sub s : string) (i : Z) :
  (0 <= i)%Z -> (Str.find_from sub s i = -1 \/ i <= Str.find_from sub s i)%Z.
Proof.
  revert i. induction s as [|c s IH]; intros i Hi.
  - cbn [Str.find_from]. destruct (String.prefix sub ""); [right; lia|left; lia].
  - cbn [Str.find_from]. destruct (String.prefix sub (String c s)).
    + right. lia.
    + destruct (IH (i + 1)%Z ltac:(lia)) as [H|H]; [left; exact H|right; lia].
Qed.

Lemma find_from_contains (sub s : string) (i : Z) :
  (0 <= i)%Z ->
  (Str.find_from sub s i = -1)%Z <-> Str.contains sub s = false.
Proof.
  revert i. induction s as [|c s IH]; intros i Hi.
  - cbn [Str.find_from Str.contains].
    destruct (String.prefix sub ""); split; intros H;
      try reflexivity; try discriminate; lia.
  - cbn [Str.find_from Str.contains].
    destruct (String.prefix sub (String c s)).
    + split; intros H; [lia|discriminate].
    + apply IH. lia.
Qed.

Lemma find_absent_iff (s sub : string) :
  Str.contains sub s = false -> Str.find s sub = (-1)%Z.
Proof. intros H. apply (find_from_contains sub s 0); [lia|exact H]. Qed.

Lemma find_contains (s sub : string) :
  Str.contains sub s = true -> Str.find s sub <> (-1)%Z.
Proof.
  intros H E. apply (find_from_contains sub s 0) in E; [|lia].
  rewrite H in E. discriminate.
Qed.

Lemma contains_pair_occurs (a b : ascii) (s : string) :
  Str.contains (String a (String b "")) s = true -> Str.occurs b s = true.
Proof.
  induction s as [|c s IH]; cbn [Str.contains String.prefix Str.occurs].
  - discriminate.
  - destruct (ascii_dec a c) as [_|_].
    + destruct s as [|d s'].
      * discriminate.
      * cbn [String.prefix]. destruct (ascii_dec b d) as [E|_].
        -- subst d. intros _. cbn [Str.occurs]. rewrite Ascii.eqb_refl.
           apply orb_true_r.
        -- intros H. rewrite (IH H). apply orb_true_r.
    + intros H. rewrite (IH H). apply orb_true_r.
Qed.

Lemma decode_utf8_char (c : ascii) (r : list byte) :
  Str.decode_utf8 (Str.utf8_char c ++ r)
  = option_map (String c) (Str.decode_utf8 r).
Proof.
  destruct c as [[] [] [] [] [] [] [] []]; reflexivity.
Qed.

(** Encoding a text and decoding the bytes gives the text back. *)
Lemma decode_encode_utf8 (t : string) :
  Str.decode_utf8 (Str.encode_utf8 t) = Some t.
Proof.
  induction t as [|c t IH]; [reflexivity|].
  cbn [Str.encode_utf8]. rewrite decode_utf8_char, IH. reflexivity.
Qed.

Lemma utf8_char_no_newline (c : ascii) :
  negb (N.eqb (Str.code c) 10) && negb (N.eqb (Str.code c) 13) = true ->
  Str.no_newline_bytes (Str.utf8_char c) = true.
Proof.
  destruct c as [[] [] [] [] [] [] [] []]; vm_compute; intros H;
    first [reflexivity | discriminate H].
Qed.

Lemma encode_no_newline (t : string) :
  Str.no_newline t = true ->
  Str.no_newline_bytes (Str.encode_utf8 t) = true.
Proof.
  induction t as [|c t IH]; [reflexivity|].
  cbn [Str.no_newline Str.encode_utf8]. intros H.
  apply andb_true_iff in H as [Hc Ht].
  unfold Str.no_newline_bytes. rewrite forallb_app.
  fold (Str.no_newline_bytes (Str.utf8_char c)).
  fold (Str.no_newline_bytes (Str.encode_utf8 t)).
  rewrite (utf8_char_no_newline c Hc), (IH Ht). reflexivity.
Qed.

Lemma splitlines_from_plain (bs cur : list byte) :
  Str.no_newline_bytes bs = true ->
  Str.splitlines_from bs cur
  = match cur ++ bs with
    | [] => []
    | l => [l]
    end.
Proof.
  revert cur. induction bs as [|b bs IH]; intros cur H.
  - cbn [Str.splitlines_from]. rewrite app_nil_r.
    destruct cur; reflexivity.
  - cbn [Str.no_newline_bytes forallb] in H.
    apply andb_true_iff in H as [Hb Hbs].
    apply andb_true_iff in Hb as [H1 H2].
    apply negb_true_iff in H1, H2.
    cbn [Str.splitlines_from]. rewrite H1, H2.
    rewrite (IH _ Hbs), <- app_assoc. reflexivity.
Qed.

Lemma encode_utf8_empty (t : string) :
  Str.encode_utf8 t = [] -> t = "".
Proof.
  destruct t as [|c t]; [reflexivity|].
  cbn [Str.encode_utf8]. unfold Str.utf8_char.
  destruct (N.ltb (Str.code c) 128); discriminate.
Qed.

(** ** What [run] makes of a line of output *)

Lemma splitlines_from_line (bs cur : list byte) :
  Str.no_newline_bytes bs = true ->
  Str.splitlines_from (bs ++ [x0a]) cur = [cur ++ bs].
Proof.
  revert cur. induction bs as [|b bs IH]; intros cur H.
  - cbn. rewrite app_nil_r. reflexivity.
  - cbn [Str.no_newline_bytes forallb] in H.
    apply andb_true_iff in H as [Hb Hbs].
    apply andb_true_iff in Hb as [H1 H2].
    apply negb_true_iff in H1, H2.
    cbn [app Str.splitlines_from]. rewrite H1, H2.
    rewrite (IH _ Hbs), <- app_assoc. reflexivity.
Qed.

Lemma captured_text_lines (out : list byte) :
  Str.captured_text (Some out) = Str.decode_join (Str.splitlines out) "".
Proof. destruct out; reflexivity. Qed.

(** A text without line ends, printed on a line of its own, is captured
    as it is. *)
Lemma captured_line (t : string) :
  Str.no_newline t = true ->
  Str.captured_text (Some (Str.encode_utf8 t ++ [x0a])) = Some t.
Proof.
  intros H. rewrite captured_text_lines. unfold Str.splitlines.
  rewrite (splitlines_from_line _ [] (encode_no_newline t H)).
  cbn [app Str.decode_join]. rewrite decode_encode_utf8. reflexivity.
Qed.




Lemma is_empty_app_char (t : string) (c : ascii) :
  Str.is_empty (t +++ String c "") = false.
Proof. destruct t; reflexivity. Qed.

Lemma rstrip_end (t : string) (c : ascii) :
  Str.isspace c = false ->
  Str.rstrip (t +++ String c "") = t +++ String c "".
Proof.
  intros Hc. induction t as [|a t IH].
  - cbn. rewrite Hc. reflexivity.
  - cbn [String.append Str.rstrip]. rewrite IH, is_empty_app_char.
    rewrite andb_false_r. reflexivity.
Qed.

(** [strip] leaves a text between double quotes as it is. *)
Lemma strip_quoted (t : string) :
  Str.strip (dquote +++ t +++ dquote) = dquote +++ t +++ dquote.
Proof.
  unfold Str.strip.
  change (Str.lstrip (dquote +++ t +++ dquote))
    with (dquote +++ t +++ dquote).
  change (dquote +++ t +++ dquote)
    with (String dquote_char t +++ String dquote_char "").
  apply rstrip_end. reflexivity.
Qed.

Lemma without_dquote_app (a b : string) :
  Str.without_dquote (a +++ b)
  = Str.without_dquote a +++ Str.without_dquote b.
Proof.
  induction a as [|c a IH]; [reflexivity|].
  cbn [String.append Str.without_dquote]. rewrite IH.
  destruct (Ascii.eqb dquote_char c); reflexivity.
Qed.

(** Taking the double quotes out of a text between double quotes takes
    out those around it and those inside it. *)
Lemma without_dquote_quoted (t : string) :
  Str.without_dquote (dquote +++ t +++ dquote) = Str.without_dquote t.
Proof.
  rewrite !without_dquote_app. cbn. apply append_empty_r.
Qed.

Lemma no_newline_app (a b : string) :
  Str.no_newline (a +++ b) = Str.no_newline a && Str.no_newline b.
Proof.
  induction a as [|c a IH]; [reflexivity|].
  cbn [String.append Str.no_newline]. rewrite IH, !andb_assoc. reflexivity.
Qed.

Lemma no_newline_quoted (t : string) :
  Str.no_newline (dquote +++ t +++ dquote) = Str.no_newline t.
Proof.
  rewrite !no_newline_app. cbn. apply andb_true_r.
Qed.


(** The result of [run] with capture on a child that prints one line. *)
Lemma run_outcome_line (code : Z) (t : string) :
  Str.no_newline t = true ->
  run_outcome true (Exited code (Str.encode_utf8 t ++ [x0a]))
  = if Z.eqb code 0 then Ok (Execution code (Str.strip t))
    else Raise (CommandError (Str.strip t)).
Proof.
  intros H. unfold run_outcome. rewrite (captured_line t H).
  destruct (Z.eqb code 0); reflexivity.
Qed.

(* ================================================================== *)
(** ** The command runner *)

Section Facts.

Variable W : Type.
Variable spawn : W -> list string -> string -> W * child.
Variable path_exists : W -> string -> bool.
Variable mkdtemp : W -> W * string.
Variable cfg : config.
Variable bump_version : json -> json -> M W (bool * string).

Implicit Types s : state W.

Lemma bind_ok {A B} (m : M W A) (k : A -> M W B) s b s' :
  bind m k s = (Ok b, s') ->
  exists a s1, m s = (Ok a, s1) /\ k a s1 = (Ok b, s').
Proof.
  unfold bind. destruct (m s) as [[a|e] s1]; intros H.
  - exists a, s1. split; [reflexivity|exact H].
  - discriminate.
Qed.

Lemma lift_ok {A} (r : result A) s a s' :
  lift r s = (Ok a, s') -> r = Ok a /\ s' = s.
Proof. unfold lift. intros H. inversion H. split; reflexivity. Qed.

Lemma decode_lines_pure (lines : list (list byte)) (output : string) s :
  decode_lines lines output s
  = (match Str.decode_join lines output with
     | Some text => Ok text
     | None => Raise UnicodeDecodeError
     end, s).
Proof.
  revert output. induction lines as [|l r IH]; intros output.
  - reflexivity.
  - cbn [decode_lines Str.decode_join].
    destruct (Str.decode_utf8 l); [apply IH|reflexivity].
Qed.

(** [run] as a function of the outcome of its one call: a refused
    command raises and nothing is asked of the operating system; a
    command without arguments raises [IndexError] likewise; any other
    asks for one child, and the result is what [run_outcome] makes of
    the outcome. *)
Lemma run_spec (cmd : command) (cwd : string) (capture quiet : bool) s :
  run spawn cmd cwd capture quiet s
  = match new_cmd_of cmd with
    | Raise e => (Raise e, s)
    | Ok [] => (Raise (NotStarted IndexError), s)
    | Ok argv =>
        (run_outcome capture (snd (spawn (world s) argv cwd)),
         State (fst (spawn (world s) argv cwd))
               (trace s ++ [Spawn argv cwd]) (tmpdirs s))
    end.
Proof.
  unfold run, bind, lift, subprocess_run.
  destruct (new_cmd_of cmd) as [[|a l]|e]; [reflexivity| |reflexivity].
  destruct (spawn (world s) (a :: l) cwd) as [w' [rc out|e]]; [|reflexivity].
  cbn [fst snd run_outcome].
  destruct capture.
  - destruct out as [|b bs].
    + cbn. destruct (Z.eqb rc 0); reflexivity.
    + cbn [Str.captured_text]. rewrite decode_lines_pure.
      destruct (Str.decode_join (Str.splitlines (b :: bs)) "");
        [|reflexivity].
      destruct (negb (Z.eqb rc 0)); reflexivity.
  - cbn. destruct (Z.eqb rc 0); reflexivity.
Qed.

(** [run] on a command with arguments. *)
Lemma run_args (cmd : command) (cwd : string) (capture quiet : bool)
    (argv : list string) s :
  new_cmd_of cmd = Ok argv ->
  argv <> [] ->
  run spawn cmd cwd capture quiet s
  = (run_outcome capture (snd (spawn (world s) argv cwd)),
     State (fst (spawn (world s) argv cwd))
           (trace s ++ [Spawn argv cwd]) (tmpdirs s)).
Proof.
  intros Hcmd Hargs. rewrite run_spec, Hcmd.
  destruct argv; [contradiction|reflexivity].
Qed.

Lemma run_outcome_uncaptured (c : child) :
  run_outcome false c
  = match c with
    | Exited code _ =>
        if Z.eqb code 0 then Ok (Execution code "")
        else Raise (CommandError "")
    | Failed e => Raise (NotStarted e)
    end.
Proof.
  destruct c as [code out|e]; [|reflexivity].
  cbn. destruct (Z.eqb code 0); reflexivity.
Qed.

Lemma run_ok (cmd : command) (cwd : string) (capture quiet : bool)
    s ex s' :
  run spawn cmd cwd capture quiet s = (Ok ex, s') ->
  exists argv,
    new_cmd_of cmd = Ok argv
    /\ run_outcome capture (snd (spawn (world s) argv cwd)) = Ok ex
    /\ s' = State (fst (spawn (world s) argv cwd))
                  (trace s ++ [Spawn argv cwd]) (tmpdirs s).
Proof.
  rewrite run_spec.
  destruct (new_cmd_of cmd) as [[|a l]|e]; [discriminate| |discriminate].
  intros H. exists (a :: l). split; [reflexivity|].
  destruct (run_outcome capture (snd (spawn (world s) (a :: l) cwd)))
    as [ex'|e]; [|discriminate].
  inversion H. split; reflexivity.
Qed.

(** C10: [run] given a text that holds a space followed by a double quote
    raises a plain [Exception] and leaves the state as it was, so no
    child process was started; and when the revert workflow ends in such
    an [Exception], the [revert] endpoint ends in the same exception and
    the same state: the [except CommandError] clause neither captures it
    nor turns it into a response. *)
Theorem run_refuses_quoted_text
    (c cwd : string) (capture quiet : bool) (req : revert_request)
    (msg : string) s s' :
  (Str.contains (" " +++ dquote) c = true ->
   run spawn (CmdStr c) cwd capture quiet s
   = (Raise (Exception (quotes_message c)), s))
  /\ (rejected (GITBOT_API_SECRET cfg) (rev_data req) (rev_signature req) s
      = (Ok false, s) ->
      process_git_revert spawn path_exists mkdtemp cfg req s
      = (Raise (Exception msg), s') ->
      revert spawn path_exists mkdtemp cfg req s
      = (Raise (Exception msg), s')).
Proof.
  split.
  - intros H. unfold run, bind, lift, new_cmd_of. rewrite H. reflexivity.
  - intros Hsig Hwork. unfold revert, bind. rewrite Hsig.
    unfold try_command_error. rewrite Hwork. reflexivity.
Qed.

(* ------------------------------------------------------------------ *)
(** ** Responses *)

Lemma respond_200 (t : string) s :
  respond (RText t) 200 s = (Ok ([("reason", t)], 200%Z), s).
Proof. reflexivity. Qed.

Lemma respond_error (t : string) (code : Z) s :
  code <> 200%Z ->
  respond (RText t) code s
  = (Ok ([("reason", t)], code),
     State (world s) (trace s ++ [CaptureMessage t "fatal"]) (tmpdirs s)).
Proof.
  intros H. unfold respond, bind, lift, capture_message, emit.
  destruct (Z.eqb_spec code 200) as [E|_]; [contradiction|].
  reflexivity.
Qed.

Lemma rejected_pure (secret : string) (data : list byte)
    (h : option string) s :
  snd (rejected secret data h s) = s.
Proof.
  unfold rejected, bind, lift, ret.
  destruct (Str.is_empty secret); [reflexivity|].
  destruct (valid_payload secret data (header_signature h)); reflexivity.
Qed.

(** C2, as the code has it: when the webhook secret is not empty and the
    signature fails the check, [index] answers 403 with the reason
    "Cannot validate payload signature."; the world is untouched and the
    trace gains one entry only, which is no child process: it is the
    capture of the reason, at level fatal, by the error-reporting sink. *)
Theorem index_rejects_bad_signature (req : webhook_request) s :
  Str.is_empty (GITHUB_WEBHOOK_SECRET cfg) = false ->
  valid_payload (GITHUB_WEBHOOK_SECRET cfg) (hook_data req)
    (header_signature (hook_signature req)) = Ok false ->
  index cfg bump_version req s
  = (Ok ([("reason", "Cannot validate payload signature.")], 403%Z),
     State (world s)
       (trace s ++ [CaptureMessage "Cannot validate payload signature."
                      "fatal"])
       (tmpdirs s)).
Proof.
  intros Hsecret Hsig. unfold index, rejected, bind, lift, ret.
  rewrite Hsecret, Hsig. cbn [negb].
  apply respond_error. discriminate.
Qed.

(* ------------------------------------------------------------------ *)
(** ** The pull request handler *)

(** C6: outside development mode, an event whose action is "opened" or
    "synchronize", whose repository, head repository and base repository
    are the upstream one, and whose pull request is merged, is answered
    "Pull request is already merged." with status 200, and the state is
    left as it was.  Nothing is asked of the body: the merged test comes
    before the marker test, so the answer is the same with the marker in
    the body. *)
Theorem merged_pull_request_is_ignored
    (data action pull_request head base repository head_repo base_repo
       : json) s :
  IS_DEV cfg = false ->
  Py.get data "action" = Ok action ->
  Py.eq_str action "opened" || Py.eq_str action "synchronize" = true ->
  Py.getitem data "pull_request" = Ok pull_request ->
  Py.getitem pull_request "head" = Ok head ->
  Py.getitem pull_request "base" = Ok base ->
  Py.getitem data "repository" = Ok repository ->
  Py.getitem repository "full_name" = Ok (JStr (SENTRY_REPO_UPSTREAM cfg)) ->
  Py.getitem head "repo" = Ok head_repo ->
  Py.getitem head_repo "full_name" = Ok (JStr (SENTRY_REPO_UPSTREAM cfg)) ->
  Py.getitem base "repo" = Ok base_repo ->
  Py.getitem base_repo "full_name" = Ok (JStr (SENTRY_REPO_UPSTREAM cfg)) ->
  Py.getitem pull_request "merged" = Ok (JBool true) ->
  process_pull_request cfg bump_version data s
  = (Ok ([("reason", "Pull request is already merged.")], 200%Z), s).
Proof.
  intros Hdev Hact Hsup Hpr Hhead Hbase Hrepo Hname Hhr Hhn Hbr Hbn Hmerged.
  unfold process_pull_request, bind, lift, ret.
  rewrite Hact. rewrite orb_comm in Hsup. rewrite Hsup. cbn [negb].
  rewrite Hpr, Hhead, Hbase, Hdev. cbn [negb].
  rewrite Hrepo, Hname. cbn [Py.eq_str]. rewrite String.eqb_refl. cbn [negb].
  rewrite Hhr, Hhn. cbn [Py.eq_str]. rewrite String.eqb_refl. cbn [negb].
  rewrite Hbr, Hbn. cbn [Py.eq_str]. rewrite String.eqb_refl. cbn [negb].
  rewrite Hmerged. cbn [Py.truthy]. reflexivity.
Qed.




(* ------------------------------------------------------------------ *)
(** ** The checkout synchroniser *)

Lemma bind_run {B} (cmd : command) (cwd : string) (quiet : bool)
    (argv : list string) (k : execution -> M W B) s :
  new_cmd_of cmd = Ok argv ->
  argv <> [] ->
  bind (run spawn cmd cwd false quiet) k s
  = let s1 := State (fst (spawn (world s) argv cwd))
                    (trace s ++ [Spawn argv cwd]) (tmpdirs s) in
    match snd (spawn (world s) argv cwd) with
    | Exited code _ =>
        if Z.eqb code 0 then k (Execution code "") s1
        else (Raise (CommandError ""), s1)
    | Failed e => (Raise (NotStarted e), s1)
    end.
Proof.
  intros Hcmd Hargs. unfold bind at 1.
  rewrite (run_args _ _ _ _ _ _ Hcmd Hargs), run_outcome_uncaptured.
  cbv zeta. destruct (snd (spawn (world s) argv cwd)) as [code out|e];
    [|reflexivity].
  destruct (Z.eqb code 0); reflexivity.
Qed.

(** One step of a plan: [run] without capture on a command, followed by
    a computation that carries out the rest of the plan, carries out the
    plan that starts with the call of the command. *)
Lemma plan_outcome_step (cmd : command) (cwd : string) (quiet : bool)
    (argv : list string) (k : execution -> M W unit) (rest : list event) s :
  new_cmd_of cmd = Ok argv ->
  argv <> [] ->
  (forall ex s1, k ex s1 = plan_outcome spawn rest s1) ->
  bind (run spawn cmd cwd false quiet) k s
  = plan_outcome spawn (Spawn argv cwd :: rest) s.
Proof.
  intros Hcmd Hargs Hk. rewrite (bind_run _ _ _ _ _ _ Hcmd Hargs). cbv zeta.
  unfold plan_outcome at 1. cbn [carry_out].
  destruct (spawn (world s) argv cwd) as [w1 [code out|e]]; cbn [fst snd];
    [|reflexivity].
  destruct (Z.eqb code 0); [|reflexivity].
  rewrite Hk. unfold plan_outcome. cbn [world trace tmpdirs].
  destruct (carry_out spawn rest w1) as [[e w2] calls].
  cbn [app]. rewrite <- app_assoc. reflexivity.
Qed.

Lemma plan_outcome_nil s : (Ok tt, s) = plan_outcome spawn [] s.
Proof.
  unfold plan_outcome. cbn. rewrite app_nil_r. destruct s. reflexivity.
Qed.

(** The calls of a plan carried out are an initial part of the plan, the
    whole of it when it completes, and the directories are kept. *)
Lemma carry_out_prefix (plan : list event) :
  Forall (fun e => is_spawn e = true) plan ->
  forall w,
  exists n,
    snd (carry_out spawn plan w) = firstn n plan
    /\ (fst (fst (carry_out spawn plan w)) = Completed ->
        n = List.length plan).
Proof.
  induction 1 as [|ev rest Hev Hrest IH]; intros w.
  - exists 0%nat. split; reflexivity.
  - destruct ev as [argv cwd| |]; try discriminate.
    cbn [carry_out].
    destruct (spawn w argv cwd) as [w1 [code out|e]].
    + destruct (Z.eqb code 0).
      * destruct (IH w1) as (n & Hcalls & Hn).
        destruct (carry_out spawn rest w1) as [[e w2] calls].
        cbn [fst snd] in *. exists (S n). split.
        -- cbn [firstn]. rewrite Hcalls. reflexivity.
        -- intros He. rewrite (Hn He). reflexivity.
      * exists 1%nat. split; [reflexivity|discriminate].
    + exists 1%nat. split; [reflexivity|discriminate].
Qed.

Lemma new_cmd_fetch :
  new_cmd_of (CmdStr "git fetch origin master")
  = Ok ["git"; "fetch"; "origin"; "master"].
Proof. reflexivity. Qed.

Lemma new_cmd_reset :
  new_cmd_of (CmdStr "git reset --hard origin/master")
  = Ok ["git"; "reset"; "--hard"; "origin/master"].
Proof. reflexivity. Qed.

Lemma new_cmd_pull :
  new_cmd_of (CmdStr "git pull origin master")
  = Ok ["git"; "pull"; "origin"; "master"].
Proof. reflexivity. Qed.

Lemma new_cmd_config :
  new_cmd_of (CmdStr "git config pull.rebase false")
  = Ok ["git"; "config"; "pull.rebase"; "false"].
Proof. reflexivity. Qed.

Lemma new_cmd_str_ok (c : string) (argv : list string) :
  new_cmd_of (CmdStr c) = Ok argv -> argv = Str.split c.
Proof.
  unfold new_cmd_of. destruct (Str.contains (" " +++ dquote) c);
    [discriminate|]. intros H. inversion H. reflexivity.
Qed.

(** Fetch, reset, pull: the three commands of a checkout that is
    present, carried out as a plan. *)
Lemma refresh_plan (checkout : string) s :
  bind (run spawn (CmdStr "git fetch origin master") checkout false false)
    (fun _ =>
       bind (run spawn (CmdStr "git reset --hard origin/master") checkout
               false false)
         (fun _ =>
            bind (run spawn (CmdStr "git pull origin master") checkout
                    false false)
              (fun _ => ret tt))) s
  = plan_outcome spawn (sync_plan true "" checkout) s.
Proof.
  unfold sync_plan. cbn [app].
  apply plan_outcome_step; [apply new_cmd_fetch|discriminate|]. intros _ s1.
  apply plan_outcome_step; [apply new_cmd_reset|discriminate|]. intros _ s2.
  apply plan_outcome_step; [apply new_cmd_pull|discriminate|]. intros _ s3.
  apply plan_outcome_nil.
Qed.

Lemma bind_assoc {A B C} (m : M W A) (f : A -> M W B) (g : B -> M W C) s :
  bind (bind m f) g s = bind m (fun x => bind (f x) g) s.
Proof. unfold bind. destruct (m s) as [[a|e] s1]; reflexivity. Qed.

Lemma bind_ext {A B} (m : M W A) (f g : A -> M W B) s :
  (forall a s1, f a s1 = g a s1) -> bind m f s = bind m g s.
Proof.
  intros H. unfold bind. destruct (m s) as [[a|e] s1]; [apply H|reflexivity].
Qed.

Lemma bind_ret {A B} (a : A) (k : A -> M W B) s : bind (ret a) k s = k a s.
Proof. reflexivity. Qed.

Lemma update_checkout_present (repo_url checkout : string) s :
  path_exists (world s) checkout = true ->
  update_checkout spawn path_exists repo_url checkout s
  = bind (run spawn (CmdStr "git fetch origin master") checkout false false)
      (fun _ =>
         bind (run spawn (CmdStr "git reset --hard origin/master") checkout
                 false false)
           (fun _ =>
              bind (run spawn (CmdStr "git pull origin master") checkout
                      false false)
                (fun _ => ret tt))) s.
Proof.
  intros H. unfold update_checkout. unfold bind at 1.
  unfold os_path_exists. rewrite H. reflexivity.
Qed.

Lemma update_checkout_absent (repo_url checkout : string) s :
  path_exists (world s) checkout = false ->
  update_checkout spawn path_exists repo_url checkout s
  = bind (run spawn (CmdStr ("git clone " +++ repo_url +++ " " +++ checkout))
            default_cwd false false)
      (fun _ =>
         bind (run spawn (CmdStr "git config pull.rebase false") checkout
                 false false)
           (fun _ =>
              bind (run spawn (CmdStr "git fetch origin master") checkout
                      false false)
                (fun _ =>
                   bind (run spawn (CmdStr "git reset --hard origin/master")
                           checkout false false)
                     (fun _ =>
                        bind (run spawn (CmdStr "git pull origin master")
                                checkout false false)
                          (fun _ => ret tt))))) s.
Proof.
  intros H. unfold update_checkout. unfold bind at 1.
  unfold os_path_exists. rewrite H. cbn [negb].
  rewrite bind_assoc. apply bind_ext. intros _ s1.
  rewrite bind_assoc. apply bind_ext. intros _ s2.
  reflexivity.
Qed.

Lemma split_git_clone (a b : string) :
  Str.split ("git clone " +++ a +++ " " +++ b)
  = ["git"; "clone"] ++ Str.split a ++ Str.split b.
Proof.
  change ("git clone " +++ a +++ " " +++ b)
    with ("git clone" +++ String " " (a +++ String " " b)).
  rewrite !split_app_space. reflexivity.
Qed.

Lemma split_git_clone_args (a b : string) :
  Str.split ("git clone " +++ a +++ " " +++ b) <> [].
Proof. rewrite split_git_clone. discriminate. Qed.

Lemma sync_plan_spawns (present : bool) (repo_url checkout : string) :
  Forall (fun e => is_spawn e = true) (sync_plan present repo_url checkout).
Proof.
  unfold sync_plan. destruct present; cbn [app];
    repeat (apply Forall_cons; [reflexivity|]); apply Forall_nil.
Qed.

(** The synchroniser is its plan carried out, unless the text of the
    clone command is refused. *)
Lemma update_checkout_plan (repo_url checkout : string) s :
  update_checkout spawn path_exists repo_url checkout s
  = let present := path_exists (world s) checkout in
    let clone := "git clone " +++ repo_url +++ " " +++ checkout in
    if negb present && Str.contains (" " +++ dquote) clone
    then (Raise (Exception (quotes_message clone)), s)
    else plan_outcome spawn (sync_plan present repo_url checkout) s.
Proof.
  cbv zeta. destruct (path_exists (world s) checkout) eqn:Hp; cbn [negb andb].
  - rewrite (update_checkout_present _ _ _ Hp). apply refresh_plan.
  - rewrite (update_checkout_absent _ _ _ Hp).
    destruct (Str.contains (" " +++ dquote)
                ("git clone " +++ repo_url +++ " " +++ checkout)) eqn:Hq.
    + unfold bind at 1. rewrite run_spec. unfold new_cmd_of. rewrite Hq.
      reflexivity.
    + unfold sync_plan. cbn [app].
      apply plan_outcome_step.
      { unfold new_cmd_of. rewrite Hq. reflexivity. }
      { apply split_git_clone_args. }
      intros _ s1.
      apply plan_outcome_step; [apply new_cmd_config|discriminate|].
      intros _ s2.
      apply refresh_plan.
Qed.

Lemma update_checkout_spec (repo_url checkout : string) s :
  let plan := sync_plan (path_exists (world s) checkout) repo_url checkout in
  let out := update_checkout spawn path_exists repo_url checkout s in
  exists n,
    trace (snd out) = trace s ++ firstn n plan
    /\ tmpdirs (snd out) = tmpdirs s
    /\ (fst out = Ok tt -> n = List.length plan).
Proof.
  cbv zeta. rewrite update_checkout_plan. cbv zeta.
  destruct (negb (path_exists (world s) checkout)
            && Str.contains (" " +++ dquote)
                 ("git clone " +++ repo_url +++ " " +++ checkout)).
  - exists 0%nat. cbn. rewrite app_nil_r. repeat split. discriminate.
  - unfold plan_outcome.
    destruct (carry_out_prefix _
                (sync_plan_spawns (path_exists (world s) checkout)
                   repo_url checkout) (world s)) as (n & Hcalls & Hn).
    destruct (carry_out spawn
                (sync_plan (path_exists (world s) checkout) repo_url
                   checkout) (world s)) as [[e w2] calls].
    cbn [fst snd trace tmpdirs] in *. exists n. subst calls.
    split; [reflexivity|]. split; [reflexivity|].
    intros He. apply Hn. destruct e; [reflexivity|discriminate].
Qed.

(** C8, as the code has it: [update_checkout] carries out its plan --
    the clone from the remote URL and the [pull.rebase false] setting
    when the checkout path is absent, then, whether it was absent or
    not, fetch of master from origin, hard reset to origin/master, and
    pull, in this order.  Each command is started in the world the one
    before it left; the first that cannot be started or that exits with
    a code other than 0 ends the call there, with that error, and the
    commands after it are not started; the call returns exactly when
    none of them fails.  A clone command whose text holds a space
    followed by a double quote is refused before anything is started. *)
Theorem update_checkout_carries_out_plan (repo_url checkout : string) s :
  update_checkout spawn path_exists repo_url checkout s
  = let present := path_exists (world s) checkout in
    let clone := "git clone " +++ repo_url +++ " " +++ checkout in
    if negb present && Str.contains (" " +++ dquote) clone
    then (Raise (Exception (quotes_message clone)), s)
    else plan_outcome spawn (sync_plan present repo_url checkout) s.
Proof. apply update_checkout_plan. Qed.

(* ------------------------------------------------------------------ *)
(** ** The revert workflow *)

Lemma keeps_ret {A} (a : A) : keeps_tmpdirs (@ret W A a).
Proof. intros s. reflexivity. Qed.

Lemma keeps_raise {A} (e : exn) : keeps_tmpdirs (@raise W A e).
Proof. intros s. reflexivity. Qed.

Lemma keeps_lift {A} (r : result A) : keeps_tmpdirs (@lift W A r).
Proof. intros s. reflexivity. Qed.

Lemma keeps_emit (e : event) : keeps_tmpdirs (@emit W e).
Proof. intros s. reflexivity. Qed.

Lemma keeps_bind {A B} (m : M W A) (k : A -> M W B) :
  keeps_tmpdirs m -> (forall a, keeps_tmpdirs (k a)) ->
  keeps_tmpdirs (bind m k).
Proof.
  intros Hm Hk s. unfold bind. specialize (Hm s).
  destruct (m s) as [[a|e] s1]; cbn [snd] in *.
  - rewrite Hk. exact Hm.
  - exact Hm.
Qed.

Lemma keeps_decode_lines (lines : list (list byte)) (output : string) :
  keeps_tmpdirs (@decode_lines W lines output).
Proof.
  revert output. induction lines as [|l r IH]; intros output s.
  - reflexivity.
  - cbn [decode_lines]. destruct (Str.decode_utf8 l); [apply IH|reflexivity].
Qed.

Lemma keeps_run (cmd : command) (cwd : string) (capture quiet : bool) :
  keeps_tmpdirs (run spawn cmd cwd capture quiet).
Proof.
  unfold run. apply keeps_bind; [apply keeps_lift|]. intros argv.
  apply keeps_bind.
  { intros s. unfold subprocess_run. destruct argv as [|a l]; [reflexivity|].
    destruct (spawn (world s) (a :: l) cwd) as [w' [rc out|e]];
      reflexivity. }
  intros child. apply keeps_bind.
  { destruct (snd child) as [[|b bs]|];
      [apply keeps_ret|apply keeps_decode_lines|apply keeps_ret]. }
  intros output. destruct (negb _); [apply keeps_raise|apply keeps_ret].
Qed.

Lemma keeps_update_checkout (repo_url checkout : string) :
  keeps_tmpdirs (update_checkout spawn path_exists repo_url checkout).
Proof.
  unfold update_checkout.
  apply keeps_bind; [intros s; reflexivity|]. intros present.
  apply keeps_bind.
  { destruct (negb present); [|apply keeps_ret].
    repeat (apply keeps_bind; [apply keeps_run|intros _]). apply keeps_ret. }
  intros _. repeat (apply keeps_bind; [apply keeps_run|intros _]).
  apply keeps_ret.
Qed.

Lemma keeps_respond (data : reply) (code : Z) :
  keeps_tmpdirs (@respond W data code).
Proof.
  unfold respond. apply keeps_bind; [|intros _; apply keeps_ret].
  destruct (negb _); [|apply keeps_ret].
  apply keeps_bind; [apply keeps_lift|]. intros reason. apply keeps_emit.
Qed.

Lemma bind_lift_ok {A B} (a : A) (k : A -> M W B) s :
  bind (lift (Ok a)) k s = k a s.
Proof. reflexivity. Qed.

Lemma bind_mkdtemp {B} (k : string -> M W B) s :
  bind (tempfile_mkdtemp mkdtemp) k s
  = k (snd (mkdtemp (world s)))
      (State (fst (mkdtemp (world s))) (trace s)
             (snd (mkdtemp (world s)) :: tmpdirs s)).
Proof.
  unfold bind, tempfile_mkdtemp.
  destruct (mkdtemp (world s)) as [w' d]. reflexivity.
Qed.

(** Once the three members of the request are read, the workflow makes
    its temporary directory, and nothing after that removes it. *)
Lemma process_git_revert_tmpdirs (req : revert_request)
    (repo sha name : string) s :
  Py.getitem_str (rev_json req) "repo" = Ok repo ->
  Py.getitem_str (rev_json req) "sha" = Ok sha ->
  Py.getitem_str (rev_json req) "name" = Ok name ->
  tmpdirs (snd (process_git_revert spawn path_exists mkdtemp cfg req s))
  = snd (mkdtemp (world s)) :: tmpdirs s.
Proof.
  intros Hrepo Hsha Hname. unfold process_git_revert. cbv zeta.
  rewrite Hrepo, Hsha, Hname. rewrite !bind_lift_ok, bind_mkdtemp.
  match goal with
  | |- tmpdirs (snd (?m ?s0)) = _ =>
      assert (keeps_tmpdirs m) as Hkeep; [|rewrite Hkeep; reflexivity]
  end.
  apply keeps_bind; [apply keeps_update_checkout|intros _].
  apply keeps_bind; [apply keeps_run|intros _].
  apply keeps_bind; [apply keeps_run|intros ex].
  destruct (_ && _); [apply keeps_respond|].
  repeat (apply keeps_bind; [apply keeps_run|intros ?]).
  apply keeps_respond.
Qed.

(** C5, as the code has it: when the signature check lets the request
    through and the request names a repository, a commit and a requester,
    the temporary directory made for the request is still among the
    directories of the process when [revert] is over, whatever the
    outcome: a response after success, a response after a command
    failure, or an exception.  No step of the program removes it. *)
Theorem revert_leaves_temporary_directory (req : revert_request)
    (repo sha name : string) s :
  rejected (GITBOT_API_SECRET cfg) (rev_data req) (rev_signature req) s
  = (Ok false, s) ->
  Py.getitem_str (rev_json req) "repo" = Ok repo ->
  Py.getitem_str (rev_json req) "sha" = Ok sha ->
  Py.getitem_str (rev_json req) "name" = Ok name ->
  tmpdirs (snd (revert spawn path_exists mkdtemp cfg req s))
  = snd (mkdtemp (world s)) :: tmpdirs s.
Proof.
  intros Hsig Hrepo Hsha Hname.
  rewrite <- (process_git_revert_tmpdirs req repo sha name s Hrepo Hsha Hname).
  unfold revert. unfold bind at 1. rewrite Hsig.
  unfold try_command_error.
  destruct (process_git_revert spawn path_exists mkdtemp cfg req s)
    as [[r|e] s1]; [reflexivity|].
  destruct e; reflexivity.
Qed.

Lemma bind_lift_raise {A B} (e : exn) (k : A -> M W B) s :
  bind (lift (Raise e)) k s = (Raise e, s).
Proof. reflexivity. Qed.

Lemma new_cmd_rev_parse :
  new_cmd_of (CmdStr "git rev-parse origin/master")
  = Ok ["git"; "rev-parse"; "origin/master"].
Proof. reflexivity. Qed.

Lemma bind_step {A B} (m : M W A) (k : A -> M W B) s a s1 :
  m s = (Ok a, s1) -> bind m k s = k a s1.
Proof. intros H. unfold bind. rewrite H. reflexivity. Qed.

Lemma gitbot_run_ok (cmd : command) (cwd : string) s ex s' :
  gitbot_run spawn cmd cwd s = (Ok ex, s') ->
  exists argv,
    new_cmd_of cmd = Ok argv
    /\ run_outcome true (snd (spawn (world s) argv cwd)) = Ok ex
    /\ s' = State (fst (spawn (world s) argv cwd))
                  (trace s ++ [Spawn argv cwd]) (tmpdirs s).
Proof. apply run_ok. Qed.

(** The capturing runner on a child that exits with code 0 after it has
    printed one line. *)
Lemma gitbot_run_line (cmd : command) (cwd : string) (argv : list string)
    (t : string) s w' :
  new_cmd_of cmd = Ok argv ->
  argv <> [] ->
  spawn (world s) argv cwd = (w', Exited 0 (Str.encode_utf8 t ++ [x0a])) ->
  Str.no_newline t = true ->
  gitbot_run spawn cmd cwd s
  = (Ok (Execution 0 (Str.strip t)),
     State w' (trace s ++ [Spawn argv cwd]) (tmpdirs s)).
Proof.
  intros Hcmd Hargs Hspawn Hline. unfold gitbot_run.
  rewrite (run_args _ _ _ _ _ _ Hcmd Hargs), Hspawn. cbn [fst snd].
  rewrite (run_outcome_line 0 t Hline). reflexivity.
Qed.

Lemma split_git_log_args (sha : string) :
  Str.split (git_log_subject sha) <> [].
Proof.
  unfold git_log_subject.
  change ("git log -1 --format=" +++ dquote +++ "%s" +++ dquote +++ " "
          +++ sha)
    with ("git" +++ String " " ("log -1 --format=" +++ dquote +++ "%s"
                                +++ dquote +++ " " +++ sha)).
  rewrite split_app_space. discriminate.
Qed.

(** The state after the synchronisation and the clone into the temporary
    directory. *)
Lemma revert_clone_state (repo_url checkout tmp_dir : string) s0 s1 e1 s2 :
  update_checkout spawn path_exists repo_url checkout s0 = (Ok tt, s1) ->
  gitbot_run spawn (CmdStr ("git clone " +++ checkout +++ " " +++ tmp_dir))
    default_cwd s1 = (Ok e1, s2) ->
  trace s2
  = trace s0
    ++ sync_plan (path_exists (world s0) checkout) repo_url checkout
    ++ [Spawn (Str.split ("git clone " +++ checkout +++ " " +++ tmp_dir))
              default_cwd]
  /\ tmpdirs s2 = tmpdirs s0.
Proof.
  intros Hup Hclone.
  destruct (update_checkout_spec repo_url checkout s0) as (n & Ht & Hd & Hn).
  cbv zeta in Ht, Hd, Hn. rewrite Hup in Ht, Hd, Hn.
  cbn [fst snd] in Ht, Hd, Hn. rewrite (Hn eq_refl), firstn_all in Ht.
  apply gitbot_run_ok in Hclone. destruct Hclone as (argv & Hcmd & _ & ->).
  apply new_cmd_str_ok in Hcmd. subst argv. cbn [trace tmpdirs].
  rewrite Ht, Hd, <- app_assoc. split; reflexivity.
Qed.

Lemma prefix_without_dquote (p t : string) :
  Str.occurs dquote_char p = false ->
  String.prefix p t = true ->
  String.prefix p (Str.without_dquote t) = true.
Proof.
  revert t. induction p as [|c p IH]; intros t Hp Ht.
  - destruct (Str.without_dquote t); reflexivity.
  - destruct t as [|d t]; [discriminate|].
    cbn [Str.occurs] in Hp. apply orb_false_iff in Hp as [Hc Hp].
    cbn [String.prefix] in Ht.
    destruct (ascii_dec c d) as [E|E]; [|discriminate]. subst d.
    cbn [Str.without_dquote]. rewrite Hc. cbn [String.prefix].
    destruct (ascii_dec c c) as [_|E]; [|contradiction].
    apply IH; assumption.
Qed.

(** C3: a revert request that names getsentry, for a commit whose
    subject starts with getsentry/sentry@, is refused.  When the
    checkout is synchronised, the clone into the temporary directory
    goes through and git prints the subject of the commit (between the
    double quotes of the format, on one line), the workflow answers with
    the reason that the commit needs to be reverted in Sentry and with
    status 400, and the trace is that of the synchronisation, the clone,
    the log query and the message captured for the answer: no revert, no
    commit and no push is started.  [run] is the capturing runner that
    [deployhook.py] imports. *)
Theorem revert_guard_refuses_bump (req : revert_request)
    (sha name subject : string) s s1 e1 s2 w3 :
  let tmp_dir := snd (mkdtemp (world s)) in
  let repo_url := GETSENTRY_REPO_URL cfg in
  let checkout := GETSENTRY_CHECKOUT_PATH cfg in
  let clone := Str.split ("git clone " +++ checkout +++ " " +++ tmp_dir) in
  let log := Str.split (git_log_subject sha) in
  let msg :=
    sha +++ " cannot be reverted because it needs to be reverted in Sentry" in
  Py.getitem_str (rev_json req) "repo" = Ok "getsentry" ->
  Py.getitem_str (rev_json req) "sha" = Ok sha ->
  Py.getitem_str (rev_json req) "name" = Ok name ->
  update_checkout spawn path_exists repo_url checkout
    (State (fst (mkdtemp (world s))) (trace s) (tmp_dir :: tmpdirs s))
  = (Ok tt, s1) ->
  gitbot_run spawn (CmdStr ("git clone " +++ checkout +++ " " +++ tmp_dir))
    default_cwd s1
  = (Ok e1, s2) ->
  Str.contains (" " +++ dquote) (git_log_subject sha) = false ->
  spawn (world s2) log tmp_dir
  = (w3, Exited 0 (Str.encode_utf8 (dquote +++ subject +++ dquote)
                   ++ [x0a])) ->
  Str.no_newline subject = true ->
  Str.startswith subject "getsentry/sentry@" = true ->
  process_git_revert spawn path_exists mkdtemp cfg req s
  = (Ok ([("reason", msg)], 400%Z),
     State w3
       (trace s
        ++ sync_plan (path_exists (fst (mkdtemp (world s))) checkout)
             repo_url checkout
        ++ [Spawn clone default_cwd;
            Spawn log tmp_dir;
            CaptureMessage msg "fatal"])
       (tmp_dir :: tmpdirs s)).
Proof.
  intros tmp_dir repo_url checkout clone log msg
    Hrepo Hsha Hname Hup Hclone Hquote Hlog Hline Hstart.
  destruct (revert_clone_state _ _ _ _ _ _ _ Hup Hclone) as [Ht Hd].
  cbn [world trace tmpdirs] in Ht, Hd.
  assert (Hcmd : new_cmd_of (CmdStr (git_log_subject sha)) = Ok log).
  { unfold new_cmd_of. rewrite Hquote. reflexivity. }
  rewrite <- no_newline_quoted in Hline.
  pose proof (gitbot_run_line _ _ _ _ _ _ Hcmd (split_git_log_args sha)
                Hlog Hline) as Hrun.
  rewrite strip_quoted in Hrun.
  unfold process_git_revert. cbv zeta.
  rewrite Hrepo, Hsha, Hname, !bind_lift_ok, bind_mkdtemp.
  change (String.eqb "getsentry" "sentry") with false. cbv iota.
  rewrite (bind_step _ _ _ _ _ Hup), (bind_step _ _ _ _ _ Hclone).
  rewrite (bind_step _ _ _ _ _ Hrun). cbn [stdout].
  rewrite replace_dquote, without_dquote_quoted.
  unfold Str.startswith in *.
  rewrite (prefix_without_dquote "getsentry/sentry@" subject eq_refl Hstart).
  change (String.eqb "getsentry" "getsentry" && true) with true. cbv iota.
  rewrite respond_error by discriminate. cbn [world trace tmpdirs].
  rewrite Ht, Hd, <- !app_assoc. reflexivity.
Qed.


(** A revert that answers with status 200 has gone all the way: the
    commands it has started are those of the synchronisation and of the
    revert, with the subject that the log query handed back. *)
Lemma process_git_revert_done (req : revert_request) s body s' :
  process_git_revert spawn path_exists mkdtemp cfg req s
  = (Ok (body, 200%Z), s') ->
  exists repo sha name subject tip,
    Py.getitem_str (rev_json req) "repo" = Ok repo
    /\ Py.getitem_str (rev_json req) "sha" = Ok sha
    /\ Py.getitem_str (rev_json req) "name" = Ok name
    /\ body = [("reason", sha +++ " reverted."); ("revert_sha", tip)]
    /\ let tmp_dir := snd (mkdtemp (world s)) in
       let repo_url := if String.eqb repo "sentry" then SENTRY_REPO_URL cfg
                       else GETSENTRY_REPO_URL cfg in
       let checkout := if String.eqb repo "sentry"
                       then SENTRY_CHECKOUT_PATH cfg
                       else GETSENTRY_CHECKOUT_PATH cfg in
       trace s'
       = trace s
         ++ sync_plan (path_exists (fst (mkdtemp (world s))) checkout)
              repo_url checkout
         ++ revert_plan (DRY_RUN cfg) repo_url checkout tmp_dir subject
              sha name.
Proof.
  unfold process_git_revert. cbv zeta. intros H.
  destruct (Py.getitem_str (rev_json req) "repo") as [repo|e] eqn:Hrepo;
    [rewrite bind_lift_ok in H|rewrite bind_lift_raise in H; discriminate].
  destruct (Py.getitem_str (rev_json req) "sha") as [sha|e] eqn:Hsha;
    [rewrite bind_lift_ok in H|rewrite bind_lift_raise in H; discriminate].
  destruct (Py.getitem_str (rev_json req) "name") as [name|e] eqn:Hname;
    [rewrite !bind_lift_ok in H|rewrite bind_lift_raise in H; discriminate].
  rewrite bind_mkdtemp in H.
  set (tmp_dir := snd (mkdtemp (world s))) in *.
  set (repo_url := if String.eqb repo "sentry" then SENTRY_REPO_URL cfg
                   else GETSENTRY_REPO_URL cfg) in *.
  set (checkout := if String.eqb repo "sentry" then SENTRY_CHECKOUT_PATH cfg
                   else GETSENTRY_CHECKOUT_PATH cfg) in *.
  apply bind_ok in H. destruct H as (u & s1 & Hup & H). destruct u.
  apply bind_ok in H. destruct H as (ex1 & s2 & Hclone & H).
  destruct (revert_clone_state _ _ _ _ _ _ _ Hup Hclone) as [Ht _].
  cbn [world trace] in Ht. clear Hup Hclone.
  apply bind_ok in H. destruct H as (ex2 & s3 & Hrun & H).
  apply gitbot_run_ok in Hrun. destruct Hrun as (a2 & Hc2 & _ & ->).
  apply new_cmd_str_ok in Hc2. subst a2.
  destruct (String.eqb repo "getsentry"
            && Str.startswith (Str.replace (stdout ex2) dquote "")
                 "getsentry/sentry@").
  { rewrite respond_error in H by discriminate.
    apply (f_equal (fun p => match fst p with
                             | Ok (_, code) => code
                             | Raise _ => 0%Z
                             end)) in H.
    cbn in H. discriminate. }
  apply bind_ok in H. destruct H as (ex3 & s4 & Hrun & H).
  apply gitbot_run_ok in Hrun. destruct Hrun as (a3 & Hc3 & _ & ->).
  apply new_cmd_str_ok in Hc3. subst a3.
  apply bind_ok in H. destruct H as (ex4 & s5 & Hrun & H).
  apply gitbot_run_ok in Hrun. destruct Hrun as (a4 & Hc4 & _ & ->).
  cbn [new_cmd_of] in Hc4. apply ok_inj in Hc4. subst a4.
  apply bind_ok in H. destruct H as (ex5 & s6 & Hrun & H).
  apply gitbot_run_ok in Hrun. destruct Hrun as (a5 & Hc5 & _ & ->).
  apply new_cmd_str_ok in Hc5. subst a5.
  apply bind_ok in H. destruct H as (ex6 & s7 & Hrun & H).
  apply gitbot_run_ok in Hrun. destruct Hrun as (a6 & Hc6 & _ & ->).
  rewrite new_cmd_rev_parse in Hc6. apply ok_inj in Hc6. subst a6.
  unfold respond, bind, ret in H. cbn [Z.eqb negb] in H.
  exists repo, sha, name, (Str.replace (stdout ex2) dquote ""), (stdout ex6).
  do 3 (split; [reflexivity|]).
  inversion H. subst. clear H. split; [reflexivity|].
  cbv zeta. cbn [trace]. rewrite Ht. unfold revert_plan.
  rewrite <- !app_assoc. reflexivity.
Qed.


(* ------------------------------------------------------------------ *)
(** ** More about the two endpoints *)

Lemma valid_payload_digest (secret : string) (payload : list byte) :
  valid_payload secret payload (hmac_hex secret payload) = Ok true.
Proof.
  unfold valid_payload, Py.compare_digest. fold (hmac_hex secret payload).
  rewrite hmac_hex_isascii, String.eqb_refl. reflexivity.
Qed.

(** X2: a request signed with the secret passes the check of both
    endpoints, whether the header gives the bare digest or the digest
    after the prefix "sha1=". *)
Theorem signed_request_passes (secret : string) (data : list byte) s :
  rejected secret data (Some ("sha1=" +++ hmac_hex secret data)) s
  = (Ok false, s)
  /\ rejected secret data (Some (hmac_hex secret data)) s = (Ok false, s).
Proof.
  unfold rejected.
  destruct (header_signature_prefixed (hmac_hex secret data)
              (occurs_hex_s _)) as [E1 E2].
  rewrite E1, E2.
  destruct (Str.is_empty secret); [split; reflexivity|].
  unfold bind, lift. rewrite valid_payload_digest. split; reflexivity.
Qed.

(** X3: with a secret set, a signature header that still holds a
    character outside ASCII once "sha1=" is removed makes either endpoint
    raise [TypeError]: no response is built, nothing is captured, no
    child process is started and no directory is made. *)
Theorem non_ascii_signature_raises
    (hook : webhook_request) (rev : revert_request) s :
  (Str.is_empty (GITHUB_WEBHOOK_SECRET cfg) = false ->
   Str.isascii (header_signature (hook_signature hook)) = false ->
   index cfg bump_version hook s
   = (Raise (TypeError
        "comparing strings with non-ASCII characters is not supported"), s))
  /\ (Str.is_empty (GITBOT_API_SECRET cfg) = false ->
      Str.isascii (header_signature (rev_signature rev)) = false ->
      revert spawn path_exists mkdtemp cfg rev s
      = (Raise (TypeError
           "comparing strings with non-ASCII characters is not supported"),
         s)).
Proof.
  split; intros Hsecret Hsig.
  - unfold index, rejected, bind, lift, valid_payload, Py.compare_digest.
    rewrite Hsecret, Hsig, andb_false_r. reflexivity.
  - unfold revert, rejected, bind, lift, valid_payload, Py.compare_digest.
    rewrite Hsecret, Hsig, andb_false_r. reflexivity.
Qed.

(** X4: a delivery that passes the signature check and whose event type
    is not "pull_request" (or is missing) is answered "Unsupported event
    type." with status 200; its body is not read and the state is left
    as it was. *)
Theorem other_events_are_acknowledged (req : webhook_request) s :
  rejected (GITHUB_WEBHOOK_SECRET cfg) (hook_data req) (hook_signature req) s
  = (Ok false, s) ->
  option_eqb (hook_event req) "pull_request" = false ->
  index cfg bump_version req s
  = (Ok ([("reason", "Unsupported event type.")], 200%Z), s).
Proof.
  intros Hsig Hevent. unfold index. unfold bind at 1.
  rewrite Hsig, Hevent. reflexivity.
Qed.

(** X5: with an empty webhook secret the signature header is not
    looked at: the outcome of [index] on a delivery is the same whatever
    the header holds, and the same without the header; a header with
    characters outside ASCII raises nothing. *)
Theorem empty_secret_skips_verification
    (req : webhook_request) (signature' : option string) s :
  Str.is_empty (GITHUB_WEBHOOK_SECRET cfg) = true ->
  index cfg bump_version req s
  = index cfg bump_version
      (WebhookRequest (hook_data req) signature' (hook_event req)
         (hook_json req)) s.
Proof.
  intros H. unfold index, rejected. rewrite H. reflexivity.
Qed.

(** X6: an event whose action is neither "synchronize" nor "opened" --
    or that has no action at all -- is answered "Unsupported action for
    pull_request event." with status 200 before anything else of the
    payload is read: a payload with no pull request in it gets the same
    answer. *)
Theorem unsupported_action_is_ignored (members : list (string * json)) s :
  match Py.assoc "action" members with
  | Some (JStr a) =>
      String.eqb a "synchronize" = false /\ String.eqb a "opened" = false
  | _ => True
  end ->
  process_pull_request cfg bump_version (JObj members) s
  = (Ok ([("reason", "Unsupported action for pull_request event.")], 200%Z),
     s).
Proof.
  intros H. unfold process_pull_request, bind, lift. cbn [Py.get].
  destruct (Py.assoc "action" members) as [[| | |a| |]|]; try reflexivity.
  destruct H as [H1 H2]. cbn [Py.eq_str]. rewrite H1, H2. reflexivity.
Qed.

(** X7: a body that is not a JSON object ([None] when the request
    carries no JSON, a list, a text, a number) makes the handler raise
    [AttributeError]; an object with a supported action and no
    "pull_request" member makes it raise [KeyError].  In both cases the
    state is left as it was. *)
Theorem malformed_event_raises (data : json) (members : list (string * json))
    (a : string) s :
  ((forall m, data <> JObj m) ->
   exists msg,
     process_pull_request cfg bump_version data s
     = (Raise (AttributeError msg), s))
  /\ (Py.assoc "action" members = Some (JStr a) ->
      String.eqb a "synchronize" || String.eqb a "opened" = true ->
      Py.assoc "pull_request" members = None ->
      process_pull_request cfg bump_version (JObj members) s
      = (Raise (KeyError "pull_request"), s)).
Proof.
  split.
  - intros H. unfold process_pull_request, bind, lift.
    destruct data; try (eexists; reflexivity). exfalso. exact (H _ eq_refl).
  - intros Ha Hsup Hpr. unfold process_pull_request, bind, lift.
    cbn [Py.get Py.getitem]. rewrite Ha. cbn [Py.eq_str].
    rewrite Hsup, Hpr. reflexivity.
Qed.

(** X8: in development mode on the staging environment, every event with
    a supported action and a pull request that has a head and a base is
    answered "We do not support this for staging." with status 200:
    [bump_version] is never called there, whatever the body and the
    commit. *)
Theorem staging_is_never_bumped
    (data action pull_request head base : json) s :
  IS_DEV cfg = true ->
  ENV cfg = "staging" ->
  Py.get data "action" = Ok action ->
  Py.eq_str action "synchronize" || Py.eq_str action "opened" = true ->
  Py.getitem data "pull_request" = Ok pull_request ->
  Py.getitem pull_request "head" = Ok head ->
  Py.getitem pull_request "base" = Ok base ->
  process_pull_request cfg bump_version data s
  = (Ok ([("reason", "We do not support this for staging.")], 200%Z), s).
Proof.
  intros Hdev Henv Hact Hsup Hpr Hhead Hbase.
  unfold process_pull_request, bind, lift.
  rewrite Hact, Hsup. cbn [negb]. rewrite Hpr, Hhead, Hbase, Hdev, Henv.
  reflexivity.
Qed.

(** X9: outside development mode, an event whose repository is not the
    upstream one is answered "Unknown repository"; and one whose
    repository is the upstream one but whose head repository is not is
    answered "Invalid head or base repos." without the base repository
    being read, so also when the base has no "repo" member.  Both
    answers have status 200 and leave the state as it was. *)
Theorem foreign_repository_is_ignored
    (data action pull_request head base repository name
       head_repo head_name : json) s :
  IS_DEV cfg = false ->
  Py.get data "action" = Ok action ->
  Py.eq_str action "synchronize" || Py.eq_str action "opened" = true ->
  Py.getitem data "pull_request" = Ok pull_request ->
  Py.getitem pull_request "head" = Ok head ->
  Py.getitem pull_request "base" = Ok base ->
  Py.getitem data "repository" = Ok repository ->
  Py.getitem repository "full_name" = Ok name ->
  (Py.eq_str name (SENTRY_REPO_UPSTREAM cfg) = false ->
   process_pull_request cfg bump_version data s
   = (Ok ([("reason", "Unknown repository")], 200%Z), s))
  /\ (Py.eq_str name (SENTRY_REPO_UPSTREAM cfg) = true ->
      Py.getitem head "repo" = Ok head_repo ->
      Py.getitem head_repo "full_name" = Ok head_name ->
      Py.eq_str head_name (SENTRY_REPO_UPSTREAM cfg) = false ->
      process_pull_request cfg bump_version data s
      = (Ok ([("reason", "Invalid head or base repos.")], 200%Z), s)).
Proof.
  intros Hdev Hact Hsup Hpr Hhead Hbase Hrepo Hname.
  unfold process_pull_request, bind, lift, ret.
  rewrite Hact, Hsup. cbn [negb]. rewrite Hpr, Hhead, Hbase, Hdev.
  cbn [negb]. rewrite Hrepo, Hname. split.
  - intros H. rewrite H. reflexivity.
  - intros H Hhr Hhn Hforeign. rewrite H. cbn [negb].
    rewrite Hhr, Hhn, Hforeign. reflexivity.
Qed.

(** X10: in development mode outside staging, the repository names and
    the merged flag are not looked at: an event with a supported action,
    a body that holds the marker and a head commit goes to
    [bump_version], called with the head branch and the head sha; the
    answer carries its reason, with status 200 if it reports an update
    and 400 if not, and an exception of [bump_version] goes through. *)
Theorem development_event_is_bumped
    (data action pull_request head base ref_sha branch : json)
    (text : string) s :
  IS_DEV cfg = true ->
  String.eqb (ENV cfg) "staging" = false ->
  Py.get data "action" = Ok action ->
  Py.eq_str action "synchronize" || Py.eq_str action "opened" = true ->
  Py.getitem data "pull_request" = Ok pull_request ->
  Py.getitem pull_request "head" = Ok head ->
  Py.getitem pull_request "base" = Ok base ->
  Py.getitem pull_request "body" = Ok (JStr text) ->
  Str.contains (GITBOT_MARKER cfg) text = true ->
  Py.getitem head "sha" = Ok ref_sha ->
  Py.truthy ref_sha = true ->
  Py.getitem head "ref" = Ok branch ->
  process_pull_request cfg bump_version data s
  = match bump_version branch ref_sha s with
    | (Ok (updated, reason), s1) =>
        respond (RText reason) (if updated then 200 else 400) s1
    | (Raise e, s1) => (Raise e, s1)
    end.
Proof.
  intros Hdev Henv Hact Hsup Hpr Hhead Hbase Hbody Hmark Hsha Htruthy Href.
  unfold process_pull_request, deploy_sync, bind, lift, ret.
  rewrite Hact, Hsup. cbn [negb]. rewrite Hpr, Hhead, Hbase, Hdev, Henv.
  cbn [negb]. rewrite Hbody.
  assert (Hfind : Z.eqb (Str.find text (GITBOT_MARKER cfg)) (-1) = false).
  { apply Z.eqb_neq. apply find_contains. exact Hmark. }
  destruct (Py.truthy (JStr text)) eqn:Ht.
  - rewrite Hfind, Hsha, Href, Htruthy.
    destruct (bump_version branch ref_sha s) as [[[updated reason]|e] s1];
      reflexivity.
  - cbn [Py.truthy] in Ht. apply negb_false_iff in Ht.
    destruct text; [|discriminate].
    rewrite Hfind, Hsha, Href, Htruthy.
    destruct (bump_version branch ref_sha s) as [[[updated reason]|e] s1];
      reflexivity.
Qed.

(** X11: with a marker that is not empty, a pull request whose body is
    null, empty, or a text in which the marker does not occur is answered
    "Deploy marker not found." with status 200 -- here in development
    mode outside staging --, whatever its head commit: [bump_version] is
    not called. *)
Theorem unmarked_pull_request_is_ignored
    (data action pull_request head base body : json) (text : string) s :
  IS_DEV cfg = true ->
  String.eqb (ENV cfg) "staging" = false ->
  Py.get data "action" = Ok action ->
  Py.eq_str action "synchronize" || Py.eq_str action "opened" = true ->
  Py.getitem data "pull_request" = Ok pull_request ->
  Py.getitem pull_request "head" = Ok head ->
  Py.getitem pull_request "base" = Ok base ->
  Py.getitem pull_request "body" = Ok body ->
  (body = JNull /\ text = "") \/ body = JStr text ->
  Str.contains (GITBOT_MARKER cfg) text = false ->
  process_pull_request cfg bump_version data s
  = (Ok ([("reason", "Deploy marker not found.")], 200%Z), s).
Proof.
  intros Hdev Henv Hact Hsup Hpr Hhead Hbase Hbody Hshape Hmark.
  unfold process_pull_request, deploy_sync, bind, lift, ret.
  rewrite Hact, Hsup. cbn [negb]. rewrite Hpr, Hhead, Hbase, Hdev, Henv.
  cbn [negb]. rewrite Hbody.
  assert (Hfind : Z.eqb (Str.find text (GITBOT_MARKER cfg)) (-1) = true).
  { apply Z.eqb_eq. apply find_absent_iff. exact Hmark. }
  destruct Hshape as [[-> ->]| ->].
  - cbn [Py.truthy]. rewrite Hfind. reflexivity.
  - destruct text as [|c t].
    + cbn [Py.truthy Str.is_empty negb]. rewrite Hfind. reflexivity.
    + cbn [Py.truthy Str.is_empty negb]. rewrite Hfind. reflexivity.
Qed.

(* ------------------------------------------------------------------ *)
(** ** More about the revert endpoint *)

(** X12: when the workflow ends in a [CommandError], [revert] answers
    "Failed to revert." with status 400 -- the output of the command is
    not in the answer --, and the sink receives two captures, in this
    order: the exception, then the reason at level fatal. *)
Theorem revert_reports_command_failure (req : revert_request)
    (output : string) s s1 :
  rejected (GITBOT_API_SECRET cfg) (rev_data req) (rev_signature req) s
  = (Ok false, s) ->
  process_git_revert spawn path_exists mkdtemp cfg req s
  = (Raise (CommandError output), s1) ->
  revert spawn path_exists mkdtemp cfg req s
  = (Ok ([("reason", "Failed to revert.")], 400%Z),
     State (world s1)
       (trace s1 ++ [CaptureException (CommandError output);
                     CaptureMessage "Failed to revert." "fatal"])
       (tmpdirs s1)).
Proof.
  intros Hsig Hwork. unfold revert. unfold bind at 1. rewrite Hsig.
  unfold try_command_error. rewrite Hwork.
  unfold bind, capture_exception, emit, respond, lift, capture_message, emit.
  cbn. rewrite <- app_assoc. reflexivity.
Qed.

(** X13: when the API secret is not empty and the signature fails the
    check, [revert] answers 403 "Cannot validate payload signature.";
    the body is not read, no directory is made, the world is untouched
    and the only new entry of the trace is the capture of the reason. *)
Theorem revert_rejects_bad_signature (req : revert_request) s :
  Str.is_empty (GITBOT_API_SECRET cfg) = false ->
  valid_payload (GITBOT_API_SECRET cfg) (rev_data req)
    (header_signature (rev_signature req)) = Ok false ->
  revert spawn path_exists mkdtemp cfg req s
  = (Ok ([("reason", "Cannot validate payload signature.")], 403%Z),
     State (world s)
       (trace s ++ [CaptureMessage "Cannot validate payload signature."
                      "fatal"])
       (tmpdirs s)).
Proof.
  intros Hsecret Hsig. unfold revert, rejected, bind, lift, ret.
  rewrite Hsecret, Hsig. reflexivity.
Qed.

(** X14: a revert request that passes the signature check and lacks one
    of the members "repo", "sha", "name" makes [revert] raise [KeyError]
    for the first one missing, in this order; the state is left as it
    was: no directory is made and no child process is started. *)
Theorem revert_missing_member_raises (req : revert_request) s :
  rejected (GITBOT_API_SECRET cfg) (rev_data req) (rev_signature req) s
  = (Ok false, s) ->
  Py.assoc "repo" (rev_json req) = None
  \/ Py.assoc "sha" (rev_json req) = None
  \/ Py.assoc "name" (rev_json req) = None ->
  exists key,
    revert spawn path_exists mkdtemp cfg req s = (Raise (KeyError key), s)
    /\ Py.assoc key (rev_json req) = None
    /\ (key = "repo"
        \/ (key = "sha" /\ Py.assoc "repo" (rev_json req) <> None)
        \/ (key = "name" /\ Py.assoc "repo" (rev_json req) <> None
            /\ Py.assoc "sha" (rev_json req) <> None)).
Proof.
  intros Hsig Hmiss. unfold revert. unfold bind at 1. rewrite Hsig.
  unfold try_command_error, process_git_revert, bind, lift, Py.getitem_str.
  cbv zeta.
  destruct (Py.assoc "repo" (rev_json req)) as [repo|] eqn:Hrepo.
  2:{ exists "repo". split; [reflexivity|]. split; [exact Hrepo|].
      left. reflexivity. }
  destruct (Py.assoc "sha" (rev_json req)) as [sha|] eqn:Hsha.
  2:{ exists "sha". split; [reflexivity|]. split; [exact Hsha|].
      right. left. split; [reflexivity|discriminate]. }
  destruct (Py.assoc "name" (rev_json req)) as [name|] eqn:Hname.
  2:{ exists "name". split; [reflexivity|]. split; [exact Hname|].
      right. right. split; [reflexivity|]. split; discriminate. }
  exfalso. destruct Hmiss as [H|[H|H]]; discriminate.
Qed.

(** The words of the commands of the workflow. *)
Lemma split_git_revert (sha : string) :
  Str.split ("git revert --no-commit " +++ sha)
  = ["git"; "revert"; "--no-commit"] ++ Str.split sha.
Proof.
  change ("git revert --no-commit " +++ sha)
    with ("git revert --no-commit" +++ String " " sha).
  rewrite split_app_space. reflexivity.
Qed.

Lemma split_git_push (url : string) (dry_run : bool) :
  Str.split ("git push " +++ url
             +++ (if dry_run then " --dry-run" else ""))
  = ["git"; "push"] ++ Str.split url
    ++ (if dry_run then ["--dry-run"] else []).
Proof.
  change ("git push " +++ url +++ (if dry_run then " --dry-run" else ""))
    with ("git push" +++ String " "
            (url +++ (if dry_run then " --dry-run" else ""))).
  rewrite split_app_space. destruct dry_run.
  - change (url +++ " --dry-run") with (url +++ String " " "--dry-run").
    rewrite split_app_space. reflexivity.
  - rewrite append_empty_r, app_nil_r. reflexivity.
Qed.

(** X15: the sha of a revert request is cut at white space and each word
    becomes an argument of its own: a revert that answers with status
    200 has started git with the arguments revert, --no-commit and then
    the words of the sha, in the temporary directory. *)
Theorem revert_splits_the_sha (req : revert_request) s body s' :
  process_git_revert spawn path_exists mkdtemp cfg req s
  = (Ok (body, 200%Z), s') ->
  exists sha,
    Py.getitem_str (rev_json req) "sha" = Ok sha
    /\ In (Spawn (["git"; "revert"; "--no-commit"] ++ Str.split sha)
                 (snd (mkdtemp (world s))))
          (trace s').
Proof.
  intros H. apply process_git_revert_done in H.
  destruct H as (repo & sha & name & subject & tip
                 & _ & Hsha & _ & _ & Htrace).
  exists sha. split; [exact Hsha|].
  cbv zeta in Htrace. rewrite Htrace, <- split_git_revert.
  apply in_or_app. right. apply in_or_app. right.
  unfold revert_plan. cbn [In]. auto.
Qed.

(** X16: a revert that answers with status 200 has pushed from the
    temporary directory to the URL of sentry when the request names
    "sentry" and to the URL of getsentry for every other name, known or
    not; the arguments are push, the words of the URL, and --dry-run
    exactly when [DRY_RUN] is set. *)
Theorem revert_push_target (req : revert_request) s body s' :
  process_git_revert spawn path_exists mkdtemp cfg req s
  = (Ok (body, 200%Z), s') ->
  exists repo,
    Py.getitem_str (rev_json req) "repo" = Ok repo
    /\ In (Spawn (["git"; "push"]
                  ++ Str.split (if String.eqb repo "sentry"
                                then SENTRY_REPO_URL cfg
                                else GETSENTRY_REPO_URL cfg)
                  ++ (if DRY_RUN cfg then ["--dry-run"] else []))
                 (snd (mkdtemp (world s))))
          (trace s').
Proof.
  intros H. apply process_git_revert_done in H.
  destruct H as (repo & sha & name & subject & tip
                 & Hrepo & _ & _ & _ & Htrace).
  exists repo. split; [exact Hrepo|].
  cbv zeta in Htrace. rewrite Htrace, <- split_git_push.
  apply in_or_app. right. apply in_or_app. right.
  unfold revert_plan. cbn [In]. auto 10.
Qed.

(** A revert that answers has got its log query past the test for
    quotes. *)
Lemma process_git_revert_ok_log (req : revert_request) s r s' :
  process_git_revert spawn path_exists mkdtemp cfg req s = (Ok r, s') ->
  exists sha,
    Py.getitem_str (rev_json req) "sha" = Ok sha
    /\ Str.contains (" " +++ dquote) (git_log_subject sha) = false.
Proof.
  unfold process_git_revert. cbv zeta. intros H.
  destruct (Py.getitem_str (rev_json req) "repo") as [repo|e] eqn:Hrepo;
    [rewrite bind_lift_ok in H|rewrite bind_lift_raise in H; discriminate].
  destruct (Py.getitem_str (rev_json req) "sha") as [sha|e] eqn:Hsha;
    [rewrite bind_lift_ok in H|rewrite bind_lift_raise in H; discriminate].
  destruct (Py.getitem_str (rev_json req) "name") as [name|e] eqn:Hname;
    [rewrite !bind_lift_ok in H|rewrite bind_lift_raise in H; discriminate].
  rewrite bind_mkdtemp in H. exists sha. split; [reflexivity|].
  apply bind_ok in H. destruct H as (u & s1 & _ & H).
  apply bind_ok in H. destruct H as (ex1 & s2 & _ & H).
  apply bind_ok in H. destruct H as (ex2 & s3 & Hrun & _).
  apply gitbot_run_ok in Hrun. destruct Hrun as (a2 & Hc2 & _).
  unfold new_cmd_of in Hc2.
  destruct (Str.contains (" " +++ dquote) (git_log_subject sha));
    [discriminate|reflexivity].
Qed.

Lemma git_log_subject_quoted (t : string) :
  Str.contains (" " +++ dquote) (git_log_subject (dquote +++ t)) = true.
Proof. vm_compute. destruct t; reflexivity. Qed.

(** X17: a revert request whose sha starts with a double quote is never
    answered with status 200, whatever git does: the log query is refused
    by [run], so the endpoint ends with 400, with 403 or with an
    exception. *)
Theorem quoted_sha_is_never_reverted (req : revert_request) (t : string)
    s body s' :
  Py.getitem_str (rev_json req) "sha" = Ok (dquote +++ t) ->
  revert spawn path_exists mkdtemp cfg req s <> (Ok (body, 200%Z), s').
Proof.
  intros Hsha. unfold revert. unfold bind at 1.
  pose proof (rejected_pure (GITBOT_API_SECRET cfg) (rev_data req)
                (rev_signature req) s) as Hpure.
  destruct (rejected (GITBOT_API_SECRET cfg) (rev_data req)
              (rev_signature req) s) as [[bad|e] s0]; [|discriminate].
  cbn [snd] in Hpure. subst s0. destruct bad.
  - rewrite respond_error by discriminate. intros H.
    apply (f_equal (fun p => match fst p with
                             | Ok (_, code) => code
                             | Raise _ => 0%Z
                             end)) in H.
    cbn in H. discriminate.
  - unfold try_command_error.
    destruct (process_git_revert spawn path_exists mkdtemp cfg req s)
      as [[r|e] s1] eqn:Hwork.
    + apply process_git_revert_ok_log in Hwork.
      destruct Hwork as (sha & Hsha' & Hquote).
      rewrite Hsha in Hsha'. apply ok_inj in Hsha'. subst sha.
      rewrite git_log_subject_quoted in Hquote. discriminate.
    + destruct e; discriminate.
Qed.

(* ------------------------------------------------------------------ *)
(** ** More about the checkout synchroniser *)

Lemma sync_plan_cwd (present : bool) (repo_url checkout : string) :
  Forall (spawned_in [default_cwd; checkout])
         (sync_plan present repo_url checkout).
Proof.
  unfold sync_plan.
  destruct present; cbn [app];
    repeat (apply Forall_cons; [cbn; auto|]); apply Forall_nil.
Qed.

Lemma Forall_firstn {A} (P : A -> Prop) (n : nat) (l : list A) :
  Forall P l -> Forall P (firstn n l).
Proof.
  revert l. induction n as [|n IH]; intros l H; [constructor|].
  destruct H; cbn [firstn]; constructor; auto.
Qed.

(** X18: [update_checkout] starts child processes in two directories
    only, the default one (/tmp, for the clone) and the checkout; it
    makes no capture and leaves the temporary directories alone. *)
Theorem update_checkout_stays_in_place (repo_url checkout : string) s :
  let out := update_checkout spawn path_exists repo_url checkout s in
  exists started,
    trace (snd out) = trace s ++ started
    /\ Forall (spawned_in [default_cwd; checkout]) started
    /\ Forall (fun e => is_spawn e = true) started
    /\ tmpdirs (snd out) = tmpdirs s.
Proof.
  cbv zeta.
  destruct (update_checkout_spec repo_url checkout s) as (n & Ht & Hd & _).
  cbv zeta in Ht, Hd.
  exists (firstn n (sync_plan (path_exists (world s) checkout) repo_url
                      checkout)).
  split; [exact Ht|]. split; [|split; [|exact Hd]].
  - apply Forall_firstn, sync_plan_cwd.
  - apply Forall_firstn. unfold sync_plan.
    destruct (path_exists (world s) checkout); cbn [app];
      repeat (apply Forall_cons; [reflexivity|]); apply Forall_nil.
Qed.

Lemma carry_out_ends (plan : list event) (w : W) :
  fst (fst (carry_out spawn plan w)) = Completed
  \/ fst (fst (carry_out spawn plan w)) = Stopped (CommandError "")
  \/ exists e, fst (fst (carry_out spawn plan w)) = Stopped (NotStarted e).
Proof.
  revert w. induction plan as [|ev rest IH]; intros w.
  - left. reflexivity.
  - destruct ev as [argv cwd|msg level|x]; cbn [carry_out]; [|apply IH..].
    destruct (spawn w argv cwd) as [w1 [code out|e]].
    + destruct (Z.eqb code 0).
      * specialize (IH w1).
        destruct (carry_out spawn rest w1) as [[e w2] calls]. exact IH.
      * right. left. reflexivity.
    + right. right. exists e. reflexivity.
Qed.

(** X19: the ways [update_checkout] can end.  When the checkout is
    absent and the text of the clone command holds a space followed by
    a double quote, it raises the plain [Exception] of [run] before
    anything is started.  In every other case it returns, or raises
    [CommandError] with an empty text (a command exited with a code
    other than 0), or raises what [subprocess.run] raised because a
    command could not be started (no git program, a working directory
    that is missing or is a file); nothing else. *)
Theorem update_checkout_outcomes (repo_url checkout : string) s :
  let out := update_checkout spawn path_exists repo_url checkout s in
  let clone := "git clone " +++ repo_url +++ " " +++ checkout in
  if negb (path_exists (world s) checkout)
     && Str.contains (" " +++ dquote) clone
  then out = (Raise (Exception (quotes_message clone)), s)
  else fst out = Ok tt
       \/ fst out = Raise (CommandError "")
       \/ exists e, fst out = Raise (NotStarted e).
Proof.
  cbv zeta. rewrite update_checkout_plan. cbv zeta.
  destruct (negb (path_exists (world s) checkout)
            && Str.contains (" " +++ dquote)
                 ("git clone " +++ repo_url +++ " " +++ checkout));
    [reflexivity|].
  unfold plan_outcome.
  pose proof (carry_out_ends
                (sync_plan (path_exists (world s) checkout) repo_url
                   checkout) (world s)) as H.
  destruct (carry_out spawn
              (sync_plan (path_exists (world s) checkout) repo_url checkout)
              (world s)) as [[e w2] calls].
  cbn [fst] in *. destruct H as [H|[H|[x H]]]; subst e; cbn [plan_result].
  - left. reflexivity.
  - right. left. reflexivity.
  - right. right. exists x. reflexivity.
Qed.

Lemma clone_without_quote (a b : string) :
  Str.occurs dquote_char a = false ->
  Str.occurs dquote_char b = false ->
  Str.contains (" " +++ dquote) ("git clone " +++ a +++ " " +++ b) = false.
Proof.
  intros Ha Hb.
  destruct (Str.contains (" " +++ dquote) ("git clone " +++ a +++ " " +++ b))
    eqn:E; [|reflexivity].
  apply contains_pair_occurs in E.
  change ("git clone " +++ a +++ " " +++ b)
    with ("git clone " +++ (a +++ (" " +++ b))) in E.
  rewrite !occurs_app, Ha, Hb in E. discriminate.
Qed.

(** X20: when the checkout is absent and neither the URL nor the path is
    empty or holds white space or a double quote, the first child
    process of [update_checkout] is git with exactly the four arguments
    git, clone, the URL and the path, started in /tmp. *)
Theorem update_checkout_clones_first (repo_url checkout : string) s :
  path_exists (world s) checkout = false ->
  Str.no_space repo_url = true -> Str.is_empty repo_url = false ->
  Str.occurs dquote_char repo_url = false ->
  Str.no_space checkout = true -> Str.is_empty checkout = false ->
  Str.occurs dquote_char checkout = false ->
  exists rest,
    trace (snd (update_checkout spawn path_exists repo_url checkout s))
    = trace s
      ++ Spawn ["git"; "clone"; repo_url; checkout] default_cwd :: rest.
Proof.
  intros Hp Hu1 Hu2 Hu3 Hc1 Hc2 Hc3.
  rewrite update_checkout_plan. cbv zeta.
  rewrite Hp, (clone_without_quote _ _ Hu3 Hc3). cbn [negb andb].
  unfold plan_outcome, sync_plan. cbn [app carry_out].
  rewrite split_git_clone, (split_word _ Hu1 Hu2), (split_word _ Hc1 Hc2).
  cbn [app].
  destruct (spawn (world s) ["git"; "clone"; repo_url; checkout] default_cwd)
    as [w1 [code out|e]]; [|exists []; reflexivity].
  destruct (Z.eqb code 0); [|exists []; reflexivity].
  destruct (carry_out spawn
              [Spawn ["git"; "config"; "pull.rebase"; "false"] checkout;
               Spawn ["git"; "fetch"; "origin"; "master"] checkout;
               Spawn ["git"; "reset"; "--hard"; "origin/master"] checkout;
               Spawn ["git"; "pull"; "origin"; "master"] checkout] w1)
    as [[e w2] calls] eqn:Hrest.
  cbn [carry_out] in Hrest. rewrite Hrest.
  exists calls. reflexivity.
Qed.

(** X21: the alias of [lib.py] synchronises from the URL that carries
    the access token: the sentry URL into the sentry checkout for the
    name "sentry", the getsentry URL into the getsentry checkout for
    every other name, known or not.  What it starts is the plan of the
    synchroniser for that URL and that checkout, carried out until a
    command fails; a clone command whose text holds a space followed by
    a double quote is refused before anything is started. *)
Theorem update_primary_repo_target (lcfg : Lib.config) (repo : string) s :
  let repo_url := if String.eqb repo "sentry"
                  then Lib.SENTRY_REPO_WITH_PAT lcfg
                  else Lib.GETSENTRY_REPO_WITH_PAT lcfg in
  let checkout := if String.eqb repo "sentry"
                  then Lib.SENTRY_CHECKOUT_PATH lcfg
                  else Lib.GETSENTRY_CHECKOUT_PATH lcfg in
  let present := path_exists (world s) checkout in
  let clone := "git clone " +++ repo_url +++ " " +++ checkout in
  Lib.update_primary_repo spawn path_exists lcfg repo s
  = if negb present && Str.contains (" " +++ dquote) clone
    then (Raise (Exception (quotes_message clone)), s)
    else plan_outcome spawn (sync_plan present repo_url checkout) s.
Proof.
  cbv zeta. unfold Lib.update_primary_repo.
  destruct (String.eqb repo "sentry"); apply update_checkout_plan.
Qed.

(* ------------------------------------------------------------------ *)
(** ** More about the command runner *)

(** X22: [run] asks the operating system for exactly one child, with or
    without capture and whatever becomes of the child, for every command
    it does not refuse and that has an argument: a list of arguments
    goes to the child as it is, quotes and spaces included, and a text
    without a space followed by a double quote goes as its words.  A
    command without arguments (an empty list, an empty or blank text)
    raises [IndexError] and nothing is started. *)
Theorem run_starts_one_child
    (cmd : command) (cwd : string) (capture quiet : bool)
    (argv : list string) s :
  new_cmd_of cmd = Ok argv ->
  match argv with
  | [] =>
      run spawn cmd cwd capture quiet s = (Raise (NotStarted IndexError), s)
  | _ :: _ =>
      snd (run spawn cmd cwd capture quiet s)
      = State (fst (spawn (world s) argv cwd)) (trace s ++ [Spawn argv cwd])
              (tmpdirs s)
  end
  /\ match cmd with
     | CmdList l => argv = l
     | CmdStr c => argv = Str.split c
     end.
Proof.
  intros Hcmd. split.
  - rewrite run_spec, Hcmd. destruct argv; reflexivity.
  - destruct cmd as [c|l].
    + apply new_cmd_str_ok. exact Hcmd.
    + cbn [new_cmd_of] in Hcmd. apply ok_inj in Hcmd. symmetry. exact Hcmd.
Qed.

(** X23: without capture the output of the child does not reach the
    program.  For a command with arguments that [run] does not refuse:
    when the child runs, [run] returns, with an empty [stdout], exactly
    when the exit code is 0, and otherwise raises a [CommandError]
    whose text is empty, whatever the child printed; when no child can
    be started, it raises what [subprocess.run] raised. *)
Theorem run_without_capture_drops_output
    (cmd : command) (cwd : string) (quiet : bool) (argv : list string) s :
  new_cmd_of cmd = Ok argv ->
  argv <> [] ->
  fst (run spawn cmd cwd false quiet s)
  = match snd (spawn (world s) argv cwd) with
    | Exited code _ =>
        if Z.eqb code 0 then Ok (Execution 0 "")
        else Raise (CommandError "")
    | Failed e => Raise (NotStarted e)
    end.
Proof.
  intros Hcmd Hargs.
  rewrite (run_args _ _ _ _ _ _ Hcmd Hargs), run_outcome_uncaptured.
  cbn [fst]. destruct (snd (spawn (world s) argv cwd)) as [code out|e];
    [|reflexivity].
  destruct (Z.eqb_spec code 0) as [E|_]; [rewrite E|]; reflexivity.
Qed.

Lemma captured_plain (text : string) :
  Str.no_newline text = true ->
  Str.captured_text (Some (Str.encode_utf8 text)) = Some text.
Proof.
  intros Hline. rewrite captured_text_lines. unfold Str.splitlines.
  rewrite (splitlines_from_plain _ [] (encode_no_newline text Hline)).
  cbn [app]. destruct (Str.encode_utf8 text) as [|b bs] eqn:Hbytes.
  - apply encode_utf8_empty in Hbytes. subst text. reflexivity.
  - cbn [Str.decode_join]. rewrite <- Hbytes, decode_encode_utf8.
    reflexivity.
Qed.

(** X24: with capture, when the child prints the UTF-8 encoding of a
    text of one line, [run] returns that text without the white space at
    its ends if the exit code is 0, and otherwise raises a [CommandError]
    that carries it.  (Without arguments there is no child, and [run]
    raises [IndexError].) *)
Theorem run_with_capture_keeps_output
    (cmd : command) (cwd : string) (quiet : bool) (argv : list string)
    (text : string) (w' : W) (code : Z) s :
  new_cmd_of cmd = Ok argv ->
  spawn (world s) argv cwd = (w', Exited code (Str.encode_utf8 text)) ->
  Str.no_newline text = true ->
  fst (run spawn cmd cwd true quiet s)
  = match argv with
    | [] => Raise (NotStarted IndexError)
    | _ :: _ =>
        if Z.eqb code 0 then Ok (Execution code (Str.strip text))
        else Raise (CommandError (Str.strip text))
    end.
Proof.
  intros Hcmd Hspawn Hline. rewrite run_spec, Hcmd.
  destruct argv as [|a l]; [reflexivity|].
  rewrite Hspawn. cbn [fst snd run_outcome].
  rewrite (captured_plain text Hline).
  destruct (Z.eqb code 0); reflexivity.
Qed.

End Facts.

(* ================================================================== *)
(** ** The theorems at work, on the worlds of [Demo] *)

Lemma index_rejects_bad_signature_witness :
  index Demo.cfg (Demo.bump_version true "bumped") Demo.forged_delivery
    Demo.start
  = (Ok ([("reason", "Cannot validate payload signature.")], 403%Z),
     State 0%nat
       [CaptureMessage "Cannot validate payload signature." "fatal"] []).
Proof.
  apply (index_rejects_bad_signature nat Demo.cfg
           (Demo.bump_version true "bumped") Demo.forged_delivery Demo.start).
  - reflexivity.
  - vm_compute. reflexivity.
Defined.

(** C2 as stated fails: with a secret set and a signature that is not
    the digest, the answer is 403 and no child process is started, but
    the reason is captured by the error-reporting sink. *)
Lemma index_captures_bad_signature :
  let out := index Demo.cfg (Demo.bump_version true "bumped")
               Demo.forged_delivery Demo.start in
  Str.is_empty (GITHUB_WEBHOOK_SECRET Demo.cfg) = false
  /\ valid_payload (GITHUB_WEBHOOK_SECRET Demo.cfg)
       (hook_data Demo.forged_delivery)
       (header_signature (hook_signature Demo.forged_delivery)) = Ok false
  /\ fst out
     = Ok ([("reason", "Cannot validate payload signature.")], 403%Z)
  /\ filter is_spawn (trace (snd out)) = []
  /\ In (CaptureMessage "Cannot validate payload signature." "fatal")
        (trace (snd out)).
Proof.
  cbv zeta. split; [reflexivity|].
  split; [vm_compute; reflexivity|].
  split; [vm_compute; reflexivity|].
  split; [vm_compute; reflexivity|].
  vm_compute. left. reflexivity.
Qed.

Lemma merged_pull_request_is_ignored_witness :
  process_pull_request Demo.cfg (Demo.bump_version true "bumped")
    (Demo.pull_request_event true) Demo.start
  = (Ok ([("reason", "Pull request is already merged.")], 200%Z),
     Demo.start).
Proof.
  apply (merged_pull_request_is_ignored nat Demo.cfg
           (Demo.bump_version true "bumped")
           (Demo.pull_request_event true) (JStr "opened")
           (Demo.pull_request true) Demo.head_commit Demo.base_commit
           Demo.upstream Demo.upstream Demo.upstream Demo.start);
    reflexivity.
Defined.

(** C8 as stated fails: when the fetch exits with a non-zero code, the
    call ends with [CommandError] and neither the reset nor the pull is
    started. *)
Lemma update_checkout_stops_at_failure :
  let out := update_checkout (Demo.spawn "" "" (Some 0%nat))
               (Demo.path_exists true)
               "https://example.org/getsentry/sentry" "/tmp/sentry"
               Demo.start in
  fst out = Raise (CommandError "")
  /\ trace (snd out)
     = [Spawn ["git"; "fetch"; "origin"; "master"] "/tmp/sentry"]
  /\ ~ In (Spawn ["git"; "reset"; "--hard"; "origin/master"] "/tmp/sentry")
          (trace (snd out))
  /\ ~ In (Spawn ["git"; "pull"; "origin"; "master"] "/tmp/sentry")
          (trace (snd out)).
Proof.
  cbv zeta. split; [vm_compute; reflexivity|].
  split; [vm_compute; reflexivity|]. split.
  - vm_compute. intros [H|[]]. discriminate.
  - vm_compute. intros [H|[]]. discriminate.
Qed.

Lemma revert_guard_refuses_bump_witness :
  process_git_revert
    (Demo.spawn "getsentry/sentry@5f2d1c0" "9c1e0a7d3b52" None)
    (Demo.path_exists true) Demo.mkdtemp Demo.cfg
    (Demo.signed_revert "getsentry" "abc1234") Demo.start
  = (Ok ([("reason",
           "abc1234 cannot be reverted because it needs to be reverted in Sentry")],
         400%Z),
     State 5%nat
       ([]
        ++ sync_plan true "https://example.org/getsentry/getsentry"
             "/tmp/getsentry"
        ++ [Spawn ["git"; "clone"; "/tmp/getsentry"; "/tmp/tmpk3v9x_2a"]
                  "/tmp";
            Spawn ["git"; "log"; "-1";
                   "--format=" +++ dquote +++ "%s" +++ dquote; "abc1234"]
                  "/tmp/tmpk3v9x_2a";
            CaptureMessage
              "abc1234 cannot be reverted because it needs to be reverted in Sentry"
              "fatal"])
       ["/tmp/tmpk3v9x_2a"]).
Proof.
  apply (revert_guard_refuses_bump nat
           (Demo.spawn "getsentry/sentry@5f2d1c0" "9c1e0a7d3b52" None)
           (Demo.path_exists true) Demo.mkdtemp Demo.cfg
           (Demo.signed_revert "getsentry" "abc1234")
           "abc1234" "Jane Doe" "getsentry/sentry@5f2d1c0" Demo.start
           (State 3%nat
              (sync_plan true "https://example.org/getsentry/getsentry"
                 "/tmp/getsentry")
              ["/tmp/tmpk3v9x_2a"])
           (Execution 0 "")
           (State 4%nat
              (sync_plan true "https://example.org/getsentry/getsentry"
                 "/tmp/getsentry"
               ++ [Spawn ["git"; "clone"; "/tmp/getsentry";
                          "/tmp/tmpk3v9x_2a"] "/tmp"])
              ["/tmp/tmpk3v9x_2a"])
           5%nat);
    vm_compute; reflexivity.
Defined.



Lemma revert_leaves_temporary_directory_witness :
  tmpdirs (snd (revert (Demo.spawn "" "" (Some 4%nat))
                  (Demo.path_exists true) Demo.mkdtemp Demo.cfg
                  (Demo.signed_revert "sentry" "abc1234") Demo.start))
  = ["/tmp/tmpk3v9x_2a"].
Proof.
  apply (revert_leaves_temporary_directory nat
           (Demo.spawn "" "" (Some 4%nat)) (Demo.path_exists true)
           Demo.mkdtemp Demo.cfg (Demo.signed_revert "sentry" "abc1234")
           "sentry" "abc1234" "Jane Doe" Demo.start).
  - vm_compute. reflexivity.
  - reflexivity.
  - reflexivity.
  - reflexivity.
Defined.

(** C5 as stated fails: after a revert that succeeds, and after one
    whose fifth child process fails and is answered "Failed to revert.",
    the temporary directory of the request is still there. *)
Lemma revert_temporary_directory_remains :
  let done := revert (Demo.spawn "" "" None) (Demo.path_exists true)
                Demo.mkdtemp Demo.cfg
                (Demo.signed_revert "sentry" "abc1234") Demo.start in
  let failed := revert (Demo.spawn "" "" (Some 4%nat))
                  (Demo.path_exists true) Demo.mkdtemp Demo.cfg
                  (Demo.signed_revert "sentry" "abc1234") Demo.start in
  fst done
  = Ok ([("reason", "abc1234 reverted."); ("revert_sha", "")], 200%Z)
  /\ tmpdirs (snd done) = ["/tmp/tmpk3v9x_2a"]
  /\ fst failed = Ok ([("reason", "Failed to revert.")], 400%Z)
  /\ tmpdirs (snd failed) = ["/tmp/tmpk3v9x_2a"].
Proof.
  cbv zeta. split; [vm_compute; reflexivity|].
  split; [vm_compute; reflexivity|].
  split; [vm_compute; reflexivity|].
  vm_compute. reflexivity.
Qed.

Lemma run_refuses_quoted_text_witness :
  let sha := dquote +++ "abc1234" in
  let git := Demo.spawn "" "" None in
  run git (CmdStr (git_log_subject sha)) "/tmp/tmpk3v9x_2a" false false
    Demo.start
  = (Raise (Exception (quotes_message (git_log_subject sha))), Demo.start)
  /\ fst (revert git (Demo.path_exists true) Demo.mkdtemp Demo.cfg
            (Demo.signed_revert "sentry" sha) Demo.start)
     = Raise (Exception (quotes_message (git_log_subject sha))).
Proof.
  cbv zeta. split.
  - apply (proj1 (run_refuses_quoted_text nat (Demo.spawn "" "" None)
                    (Demo.path_exists true) Demo.mkdtemp Demo.cfg
                    (git_log_subject (dquote +++ "abc1234"))
                    "/tmp/tmpk3v9x_2a" false false
                    (Demo.signed_revert "sentry" (dquote +++ "abc1234"))
                    "" Demo.start Demo.start)).
    vm_compute. reflexivity.
  - rewrite (proj2 (run_refuses_quoted_text nat (Demo.spawn "" "" None)
                      (Demo.path_exists true) Demo.mkdtemp Demo.cfg
                      "" "" false false
                      (Demo.signed_revert "sentry" (dquote +++ "abc1234"))
                      (quotes_message
                         (git_log_subject (dquote +++ "abc1234")))
                      Demo.start
                      (snd (process_git_revert (Demo.spawn "" "" None)
                              (Demo.path_exists true) Demo.mkdtemp Demo.cfg
                              (Demo.signed_revert "sentry"
                                 (dquote +++ "abc1234"))
                              Demo.start)))).
    + reflexivity.
    + vm_compute. reflexivity.
    + vm_compute. reflexivity.
Defined.

(* ================================================================== *)
(** ** The further properties at work *)

Lemma accepted_signature_shape_witness :
  let digest := hmac_hex "hook-secret" (Demo.bytes_of_string "{}") in
  digest = hmac_hex "hook-secret" (Demo.bytes_of_string "{}")
  /\ String.length digest = 40%nat
  /\ Str.all_lower_hex digest = true.
Proof.
  cbv zeta.
  apply (accepted_signature_shape "hook-secret" (Demo.bytes_of_string "{}")
           (hmac_hex "hook-secret" (Demo.bytes_of_string "{}"))).
  vm_compute. reflexivity.
Defined.

Lemma non_ascii_signature_raises_witness :
  let header := Some ("sha1=" +++ String (ascii_of_nat 233) "") in
  index Demo.cfg (Demo.bump_version true "bumped")
    (WebhookRequest [] header (Some "pull_request") JNull) Demo.start
  = (Raise (TypeError
       "comparing strings with non-ASCII characters is not supported"),
     Demo.start)
  /\ revert (Demo.spawn "" "" None) (Demo.path_exists true) Demo.mkdtemp
       Demo.cfg (RevertRequest [] header []) Demo.start
     = (Raise (TypeError
          "comparing strings with non-ASCII characters is not supported"),
        Demo.start).
Proof.
  cbv zeta. split.
  - apply (proj1 (non_ascii_signature_raises nat (Demo.spawn "" "" None)
                    (Demo.path_exists true) Demo.mkdtemp Demo.cfg
                    (Demo.bump_version true "bumped")
                    (WebhookRequest []
                       (Some ("sha1=" +++ String (ascii_of_nat 233) ""))
                       (Some "pull_request") JNull)
                    (RevertRequest [] None []) Demo.start));
      vm_compute; reflexivity.
  - apply (proj2 (non_ascii_signature_raises nat (Demo.spawn "" "" None)
                    (Demo.path_exists true) Demo.mkdtemp Demo.cfg
                    (Demo.bump_version true "bumped")
                    (WebhookRequest [] None None JNull)
                    (RevertRequest []
                       (Some ("sha1=" +++ String (ascii_of_nat 233) ""))
                       [])
                    Demo.start));
      vm_compute; reflexivity.
Defined.

Lemma other_events_are_acknowledged_witness :
  let data := Demo.bytes_of_string "{}" in
  index Demo.cfg (Demo.bump_version true "bumped")
    (WebhookRequest data (Some ("sha1=" +++ hmac_hex "hook-secret" data))
       (Some "ping") (JObj []))
    Demo.start
  = (Ok ([("reason", "Unsupported event type.")], 200%Z), Demo.start).
Proof.
  cbv zeta.
  apply (other_events_are_acknowledged nat Demo.cfg
           (Demo.bump_version true "bumped")
           (WebhookRequest (Demo.bytes_of_string "{}")
              (Some ("sha1=" +++ hmac_hex "hook-secret"
                                   (Demo.bytes_of_string "{}")))
              (Some "ping") (JObj []))
           Demo.start).
  - vm_compute. reflexivity.
  - reflexivity.
Defined.

Lemma empty_secret_skips_verification_witness :
  index (Demo.dev_cfg "development") (Demo.bump_version true "bumped")
    Demo.forged_delivery Demo.start
  = index (Demo.dev_cfg "development") (Demo.bump_version true "bumped")
      (WebhookRequest (Demo.bytes_of_string "{}") None (Some "pull_request")
         (JObj []))
      Demo.start.
Proof.
  apply (empty_secret_skips_verification nat (Demo.dev_cfg "development")
           (Demo.bump_version true "bumped") Demo.forged_delivery
           None Demo.start).
  reflexivity.
Defined.

Lemma unsupported_action_is_ignored_witness :
  process_pull_request Demo.cfg (Demo.bump_version true "bumped")
    (JObj [("action", JStr "closed")]) Demo.start
  = (Ok ([("reason", "Unsupported action for pull_request event.")], 200%Z),
     Demo.start).
Proof.
  apply (unsupported_action_is_ignored nat Demo.cfg
           (Demo.bump_version true "bumped") [("action", JStr "closed")]
           Demo.start).
  cbn. split; reflexivity.
Defined.

Lemma malformed_event_raises_witness :
  (exists msg,
      process_pull_request Demo.cfg (Demo.bump_version true "bumped")
        JNull Demo.start
      = (Raise (AttributeError msg), Demo.start))
  /\ process_pull_request Demo.cfg (Demo.bump_version true "bumped")
       (JObj [("action", JStr "opened")]) Demo.start
     = (Raise (KeyError "pull_request"), Demo.start).
Proof.
  split.
  - apply (proj1 (malformed_event_raises nat Demo.cfg
                    (Demo.bump_version true "bumped") JNull [] ""
                    Demo.start)).
    intros m. discriminate.
  - apply (proj2 (malformed_event_raises nat Demo.cfg
                    (Demo.bump_version true "bumped") JNull
                    [("action", JStr "opened")] "opened" Demo.start));
      reflexivity.
Defined.

Lemma staging_is_never_bumped_witness :
  process_pull_request (Demo.dev_cfg "staging")
    (Demo.bump_version true "bumped") (Demo.pull_request_event false)
    Demo.start
  = (Ok ([("reason", "We do not support this for staging.")], 200%Z),
     Demo.start).
Proof.
  apply (staging_is_never_bumped nat (Demo.dev_cfg "staging")
           (Demo.bump_version true "bumped") (Demo.pull_request_event false)
           (JStr "opened") (Demo.pull_request false) Demo.head_commit
           Demo.base_commit Demo.start);
    reflexivity.
Defined.

Lemma foreign_repository_is_ignored_witness :
  let fork := JObj [("full_name", JStr "someone/sentry")] in
  let from_fork :=
    JObj [("head", JObj [("repo", fork); ("sha", JStr "4b825dc642cb");
                         ("ref", JStr "feat/search")]);
          ("base", JObj []);
          ("merged", JBool false);
          ("body", JStr "#sync-getsentry")] in
  process_pull_request Demo.cfg (Demo.bump_version true "bumped")
    (JObj [("action", JStr "opened"); ("repository", fork);
           ("pull_request", from_fork)])
    Demo.start
  = (Ok ([("reason", "Unknown repository")], 200%Z), Demo.start)
  /\ process_pull_request Demo.cfg (Demo.bump_version true "bumped")
       (JObj [("action", JStr "opened"); ("repository", Demo.upstream);
              ("pull_request", from_fork)])
       Demo.start
     = (Ok ([("reason", "Invalid head or base repos.")], 200%Z), Demo.start).
Proof.
  cbv zeta.
  pose (fork := JObj [("full_name", JStr "someone/sentry")]).
  pose (head := JObj [("repo", fork); ("sha", JStr "4b825dc642cb");
                      ("ref", JStr "feat/search")]).
  pose (from_fork := JObj [("head", head); ("base", JObj []);
                           ("merged", JBool false);
                           ("body", JStr "#sync-getsentry")]).
  split.
  - apply (proj1 (foreign_repository_is_ignored nat Demo.cfg
                    (Demo.bump_version true "bumped")
                    (JObj [("action", JStr "opened"); ("repository", fork);
                           ("pull_request", from_fork)])
                    (JStr "opened") from_fork head (JObj []) fork
                    (JStr "someone/sentry") JNull JNull Demo.start
                    eq_refl eq_refl eq_refl eq_refl eq_refl eq_refl
                    eq_refl eq_refl)).
    reflexivity.
  - apply (proj2 (foreign_repository_is_ignored nat Demo.cfg
                    (Demo.bump_version true "bumped")
                    (JObj [("action", JStr "opened");
                           ("repository", Demo.upstream);
                           ("pull_request", from_fork)])
                    (JStr "opened") from_fork head (JObj []) Demo.upstream
                    (JStr "getsentry/sentry") fork (JStr "someone/sentry")
                    Demo.start
                    eq_refl eq_refl eq_refl eq_refl eq_refl eq_refl
                    eq_refl eq_refl));
      reflexivity.
Defined.

Lemma development_event_is_bumped_witness :
  process_pull_request (Demo.dev_cfg "development")
    (Demo.bump_version false "bump failed") (Demo.pull_request_event true)
    Demo.start
  = match Demo.bump_version false "bump failed" (JStr "feat/search")
            (JStr "4b825dc642cb") Demo.start with
    | (Ok (updated, reason), s1) =>
        respond (RText reason) (if updated then 200 else 400) s1
    | (Raise e, s1) => (Raise e, s1)
    end.
Proof.
  apply (development_event_is_bumped nat (Demo.dev_cfg "development")
           (Demo.bump_version false "bump failed")
           (Demo.pull_request_event true) (JStr "opened")
           (Demo.pull_request true) Demo.head_commit Demo.base_commit
           (JStr "4b825dc642cb") (JStr "feat/search")
           "Fix the parser. #sync-getsentry" Demo.start);
    reflexivity.
Defined.

Lemma unmarked_pull_request_is_ignored_witness :
  process_pull_request (Demo.dev_cfg "development")
    (Demo.bump_version true "bumped")
    (JObj [("action", JStr "synchronize");
           ("pull_request",
            JObj [("head", Demo.head_commit); ("base", Demo.base_commit);
                  ("body", JNull)])])
    Demo.start
  = (Ok ([("reason", "Deploy marker not found.")], 200%Z), Demo.start).
Proof.
  apply (unmarked_pull_request_is_ignored nat (Demo.dev_cfg "development")
           (Demo.bump_version true "bumped")
           (JObj [("action", JStr "synchronize");
                  ("pull_request",
                   JObj [("head", Demo.head_commit);
                         ("base", Demo.base_commit); ("body", JNull)])])
           (JStr "synchronize")
           (JObj [("head", Demo.head_commit); ("base", Demo.base_commit);
                  ("body", JNull)])
           Demo.head_commit Demo.base_commit JNull "" Demo.start);
    try reflexivity.
  left. split; reflexivity.
Defined.

Lemma revert_reports_command_failure_witness :
  let git := Demo.spawn "" "" (Some 7%nat) in
  let req := Demo.signed_revert "sentry" "abc1234" in
  let s1 := snd (process_git_revert git (Demo.path_exists true)
                   Demo.mkdtemp Demo.cfg req Demo.start) in
  revert git (Demo.path_exists true) Demo.mkdtemp Demo.cfg req Demo.start
  = (Ok ([("reason", "Failed to revert.")], 400%Z),
     State (world s1)
       (trace s1 ++ [CaptureException (CommandError "");
                     CaptureMessage "Failed to revert." "fatal"])
       (tmpdirs s1)).
Proof.
  cbv zeta.
  apply (revert_reports_command_failure nat (Demo.spawn "" "" (Some 7%nat))
           (Demo.path_exists true) Demo.mkdtemp Demo.cfg
           (Demo.signed_revert "sentry" "abc1234") "" Demo.start).
  - vm_compute. reflexivity.
  - vm_compute. reflexivity.
Defined.

Lemma revert_rejects_bad_signature_witness :
  revert (Demo.spawn "" "" None) (Demo.path_exists true) Demo.mkdtemp
    Demo.cfg
    (RevertRequest (Demo.revert_body "sentry" "abc1234")
       (Some "sha1=0000000000000000000000000000000000000000")
       (Demo.revert_members "sentry" "abc1234"))
    Demo.start
  = (Ok ([("reason", "Cannot validate payload signature.")], 403%Z),
     State 0%nat
       [CaptureMessage "Cannot validate payload signature." "fatal"] []).
Proof.
  apply (revert_rejects_bad_signature nat (Demo.spawn "" "" None)
           (Demo.path_exists true) Demo.mkdtemp Demo.cfg
           (RevertRequest (Demo.revert_body "sentry" "abc1234")
              (Some "sha1=0000000000000000000000000000000000000000")
              (Demo.revert_members "sentry" "abc1234"))
           Demo.start).
  - reflexivity.
  - vm_compute. reflexivity.
Defined.

Lemma revert_missing_member_raises_witness :
  let members := [("repo", "sentry"); ("name", "Jane Doe")] in
  let req := RevertRequest [] (Some (hmac_hex "api-secret" [])) members in
  exists key,
    revert (Demo.spawn "" "" None) (Demo.path_exists true) Demo.mkdtemp
      Demo.cfg req Demo.start
    = (Raise (KeyError key), Demo.start)
    /\ Py.assoc key members = None
    /\ (key = "repo"
        \/ (key = "sha" /\ Py.assoc "repo" members <> None)
        \/ (key = "name" /\ Py.assoc "repo" members <> None
            /\ Py.assoc "sha" members <> None)).
Proof.
  cbv zeta.
  apply (revert_missing_member_raises nat (Demo.spawn "" "" None)
           (Demo.path_exists true) Demo.mkdtemp Demo.cfg
           (RevertRequest [] (Some (hmac_hex "api-secret" []))
              [("repo", "sentry"); ("name", "Jane Doe")])
           Demo.start).
  - vm_compute. reflexivity.
  - right. left. reflexivity.
Defined.

Lemma revert_splits_the_sha_witness :
  let git := Demo.spawn "" "" None in
  let req := Demo.signed_revert "sentry" "abc1234 --no-edit" in
  exists sha,
    Py.getitem_str (rev_json req) "sha" = Ok sha
    /\ In (Spawn (["git"; "revert"; "--no-commit"] ++ Str.split sha)
                 "/tmp/tmpk3v9x_2a")
          (trace (snd (process_git_revert git (Demo.path_exists true)
                         Demo.mkdtemp Demo.cfg req Demo.start))).
Proof.
  cbv zeta.
  apply (revert_splits_the_sha nat (Demo.spawn "" "" None)
           (Demo.path_exists true) Demo.mkdtemp Demo.cfg
           (Demo.signed_revert "sentry" "abc1234 --no-edit") Demo.start
           [("reason", "abc1234 --no-edit reverted."); ("revert_sha", "")]).
  vm_compute. reflexivity.
Defined.

Lemma revert_push_target_witness :
  let git := Demo.spawn "" "" None in
  let req := Demo.signed_revert "snuba" "abc1234" in
  exists repo,
    Py.getitem_str (rev_json req) "repo" = Ok repo
    /\ In (Spawn (["git"; "push"]
                  ++ Str.split (if String.eqb repo "sentry"
                                then SENTRY_REPO_URL Demo.cfg
                                else GETSENTRY_REPO_URL Demo.cfg)
                  ++ (if DRY_RUN Demo.cfg then ["--dry-run"] else []))
                 "/tmp/tmpk3v9x_2a")
          (trace (snd (process_git_revert git (Demo.path_exists true)
                         Demo.mkdtemp Demo.cfg req Demo.start))).
Proof.
  cbv zeta.
  apply (revert_push_target nat (Demo.spawn "" "" None)
           (Demo.path_exists true) Demo.mkdtemp Demo.cfg
           (Demo.signed_revert "snuba" "abc1234") Demo.start
           [("reason", "abc1234 reverted."); ("revert_sha", "")]).
  vm_compute. reflexivity.
Defined.

Lemma quoted_sha_is_never_reverted_witness :
  revert (Demo.spawn "" "" None) (Demo.path_exists true) Demo.mkdtemp
    Demo.cfg (Demo.signed_revert "sentry" (dquote +++ "abc1234"))
    Demo.start
  <> (Ok ([("reason", dquote +++ "abc1234 reverted.");
           ("revert_sha", "")], 200%Z),
      Demo.start).
Proof.
  apply (quoted_sha_is_never_reverted nat (Demo.spawn "" "" None)
           (Demo.path_exists true) Demo.mkdtemp Demo.cfg
           (Demo.signed_revert "sentry" (dquote +++ "abc1234")) "abc1234"
           Demo.start).
  reflexivity.
Defined.

Lemma update_checkout_clones_first_witness :
  exists rest,
    trace (snd (update_checkout (Demo.spawn "" "" (Some 0%nat))
                  (Demo.path_exists false)
                  "https://example.org/getsentry/sentry" "/tmp/sentry"
                  Demo.start))
    = trace Demo.start
      ++ Spawn ["git"; "clone"; "https://example.org/getsentry/sentry";
                "/tmp/sentry"] default_cwd :: rest.
Proof.
  apply (update_checkout_clones_first nat (Demo.spawn "" "" (Some 0%nat))
           (Demo.path_exists false)
           "https://example.org/getsentry/sentry" "/tmp/sentry" Demo.start);
    reflexivity.
Defined.

Lemma run_starts_one_child_witness :
  let argv := revert_commit "" "abc1234" "Jane Doe" in
  snd (run (Demo.spawn "" "" None) (CmdList argv) "/tmp/tmpk3v9x_2a" false
         false Demo.start)
  = State 1%nat [Spawn argv "/tmp/tmpk3v9x_2a"] []
  /\ argv = argv.
Proof.
  cbv zeta.
  apply (run_starts_one_child nat (Demo.spawn "" "" None)
           (CmdList (revert_commit "" "abc1234" "Jane Doe"))
           "/tmp/tmpk3v9x_2a" false false
           (revert_commit "" "abc1234" "Jane Doe") Demo.start).
  reflexivity.
Defined.

Lemma run_without_capture_drops_output_witness :
  fst (run (Demo.echo 128 "fatal: bad revision")
         (CmdStr "git rev-parse origin/master") "/tmp/tmpk3v9x_2a" false false
         Demo.start)
  = Raise (CommandError "").
Proof.
  apply (run_without_capture_drops_output nat
           (Demo.echo 128 "fatal: bad revision")
           (CmdStr "git rev-parse origin/master") "/tmp/tmpk3v9x_2a" false
           ["git"; "rev-parse"; "origin/master"] Demo.start).
  - reflexivity.
  - discriminate.
Defined.

Lemma run_with_capture_keeps_output_witness :
  fst (run (Demo.echo 128 "fatal: bad revision ")
         (CmdStr "git rev-parse origin/master") "/tmp/tmpk3v9x_2a" true false
         Demo.start)
  = Raise (CommandError "fatal: bad revision").
Proof.
  apply (run_with_capture_keeps_output nat
           (Demo.echo 128 "fatal: bad revision ")
           (CmdStr "git rev-parse origin/master") "/tmp/tmpk3v9x_2a" false
           ["git"; "rev-parse"; "origin/master"] "fatal: bad revision "
           1%nat 128%Z Demo.start);
    reflexivity.
Defined.
